(** * Subscription refresh pipeline and API client: a shallow embedding

    The development follows [get_trial.py] (identical in behaviour to
    [get_trial_update_url.py], which differs only in the language of its
    log texts) and [01.py].  Python values are a small inductive type,
    exceptions are values of a record, and the functions that mutate the
    shared [cache] and [log] are computations in a state-and-exception
    monad.  Functions the scripts import but do not define ([should_turn],
    [do_turn], [guess_panel], [g0], the HTTP layer, ...) are fields of a
    record of externals over which every definition is parameterised. *)

From stdpp Require Import gmap strings list fin_maps pretty.
From Stdlib Require Import ZArith.

Local Set Warnings "-register-all".
Local Open Scope Z_scope.

(** ** Python values and exceptions *)

Module Py.

(** The values the scripts handle.  A tuple is modelled as a list (the
    code only iterates or star-unpacks them); floats are left out. *)
Inductive value : Type :=
  | VNone
  | VBool (b : bool)
  | VInt (z : Z)
  | VStr (s : string)
  | VList (l : list value)
  | VDict (d : list (string * value)).

(** [bool(v)]: the truth value Python gives to [v]. *)
Definition truthy (v : value) : bool :=
  match v with
  | VNone => false
  | VBool b => b
  | VInt z => negb (z =? 0)
  | VStr s => negb (String.eqb s "")
  | VList l => match l with [] => false | _ => true end
  | VDict d => match d with [] => false | _ => true end
  end.

(** [v == n] for an integer literal [n]; [True == 1] and [False == 0]. *)
Definition eq_int (v : value) (n : Z) : bool :=
  match v with
  | VInt z => z =? n
  | VBool b => (if b then 1 else 0) =? n
  | _ => false
  end.

(** The classes of exception the code tells apart in its [except]
    clauses, and those it raises itself.  Every kind is a subclass of
    [Exception]. *)
Inductive exc_kind : Type :=
  | Timeout | ConnectionError | HTTPError
  | KeyError | ValueError | IndexError | TypeError | NameError
  | AttributeError | OtherError.

Global Instance exc_kind_eq_dec : EqDecision exc_kind.
Proof. solve_decision. Defined.

(** An exception [e]; [exc_msg e] is [str(e)]. *)
Record exc : Type := Exc { exc_kind_of : exc_kind; exc_msg : string }.

(** The outcome of a call: a returned value or a raised exception. *)
Inductive result (A : Type) : Type :=
  | Ok (a : A)
  | Raise (e : exc).
Global Arguments Ok {A} a.
Global Arguments Raise {A} e.

Definition type_name (v : value) : string :=
  match v with
  | VNone => "NoneType" | VBool _ => "bool" | VInt _ => "int"
  | VStr _ => "str" | VList _ => "list" | VDict _ => "dict"
  end.

(** [repr(s)] of a string; exact when [s] holds no quote, backslash or
    control character. *)
Definition repr_str (s : string) : string := "'" +:+ s +:+ "'".

Definition join (sep : string) (l : list string) : string :=
  match l with
  | [] => ""
  | x :: r => x +:+ fold_right (fun y acc => sep +:+ y +:+ acc) "" r
  end.

(** [repr(v)]. *)
Fixpoint repr (v : value) : string :=
  match v with
  | VNone => "None"
  | VBool b => if b then "True" else "False"
  | VInt z => pretty z
  | VStr s => repr_str s
  | VList l => "[" +:+ join ", " (map repr l) +:+ "]"
  | VDict d =>
      "{" +:+ join ", " (map (fun kv => repr_str (fst kv) +:+ ": " +:+ repr (snd kv)) d)
      +:+ "}"
  end.

(** [str(v)], which is what an f-string field [{v}] prints. *)
Definition str (v : value) : string :=
  match v with
  | VStr s => s
  | _ => repr v
  end.

(** [v[0]]. *)
Definition getitem0 (v : value) : result value :=
  match v with
  | VList (x :: _) => Ok x
  | VList [] => Raise (Exc IndexError "list index out of range")
  | VStr (String a _) => Ok (VStr (String a ""))
  | VStr "" => Raise (Exc IndexError "string index out of range")
  | VDict _ => Raise (Exc KeyError "0")
  | _ => Raise (Exc TypeError ("'" +:+ type_name v +:+ "' object is not subscriptable"))
  end.

Fixpoint assoc (k : string) (d : list (string * value)) : option value :=
  match d with
  | [] => None
  | (k', v) :: r => if String.eqb k k' then Some v else assoc k r
  end.

(** [v[k]] for a string key [k]. *)
Definition getitem (v : value) (k : string) : result value :=
  match v with
  | VDict d =>
      match assoc k d with
      | Some x => Ok x
      | None => Raise (Exc KeyError (repr_str k))
      end
  | VStr _ => Raise (Exc TypeError "string indices must be integers, not 'str'")
  | VList _ => Raise (Exc TypeError "list indices must be integers or slices, not str")
  | _ => Raise (Exc TypeError ("'" +:+ type_name v +:+ "' object is not subscriptable"))
  end.

(** [v.get(k, dflt)]: defined on dictionaries only. *)
Definition dict_get (v : value) (k : string) (dflt : value) : result value :=
  match v with
  | VDict d => Ok (default dflt (assoc k d))
  | _ => Raise (Exc AttributeError
                  ("'" +:+ type_name v +:+ "' object has no attribute 'get'"))
  end.

(** The one-character string holding a double quote (code 34). *)
Definition dquote : string :=
  String (Ascii.Ascii false true false false false true false false) EmptyString.

(** [s + v] for a string [s]. *)
Definition str_add (s : string) (v : value) : result string :=
  match v with
  | VStr t => Ok (s +:+ t)
  | _ => Raise (Exc TypeError
                  ("can only concatenate str (not " +:+ dquote +:+ type_name v +:+ dquote
                   +:+ ") to str"))
  end.

(** The integer a value stands for in arithmetic: [int] and [bool] only. *)
Definition as_int (v : value) : option Z :=
  match v with
  | VInt z => Some z
  | VBool b => Some (if b then 1 else 0)
  | _ => None
  end.

(** Computations over a mutable state [S] that return or raise. *)
Definition comp (S A : Type) : Type := S -> S * result A.

Global Instance comp_ret {S} : MRet (comp S) := fun A a st => (st, Ok a).

Global Instance comp_bind {S} : MBind (comp S) := fun A B f m st =>
  match m st with
  | (st', Ok a) => f a st'
  | (st', Raise e) => (st', Raise e)
  end.

Definition raise {S A} (e : exc) : comp S A := fun st => (st, Raise e).

Definition lift {S A} (r : result A) : comp S A := fun st => (st, r).

(** [try: m  except Exception as e: ...]: the exception becomes a value
    handed to the code that follows. *)
Definition attempt {S A} (m : comp S A) : comp S (exc + A) := fun st =>
  match m st with
  | (st', Ok a) => (st', Ok (inr a))
  | (st', Raise e) => (st', Ok (inl e))
  end.

End Py.

(** ** The subscription-refresh pipeline of [get_trial.py] *)

Module GetTrial.
Import Py.

(** The [cache] and [opt] dictionaries.  The annotation of [cache] is
    [dict[str, list[str]]]; Python does not enforce it, so the values are
    arbitrary. *)
Abbreviation dict := (gmap string value).

(** The two attributes of a [PanelSession] that the code reads. *)
Record session : Type := Session { host : string; origin : string }.

(** Calls to the functions the pipeline depends on, recorded in call
    order.  [CallShouldTurn] and [CallPanelClass] keep the cache they
    were handed. *)
Inductive event : Type :=
  | CallShouldTurn (c : dict)
  | CallDoTurn (force_reg : bool)
  | CallGetSub
  | CallPanelClass (c : dict).

(** The objects shared by all calls: the mutable [cache] and [log], and
    the record of calls made so far. *)
Record state : Type := State {
  cache : dict;
  log : list string;
  trace : list event
}.

(** What the module imports or assumes to be defined elsewhere.  A callee
    that is handed a mutable object returns its new content. *)
Record externals : Type := Externals {
  (* [should_turn(session, opt, cache)], already iterated by the
     unpacking [turn, *sub = ...] *)
  should_turn : session -> dict -> dict -> dict * result (list value);
  (* [do_turn(session, opt, cache, log, force_reg=...)] *)
  do_turn : session -> dict -> dict -> list string -> bool ->
            dict * list string * result unit;
  (* [utils.g0(d, k)] and [utils.g0(d, k, default)] *)
  g0 : dict -> string -> option value -> result value;
  (* [requests.get(url, timeout=10).json()] *)
  requests_get_json : value -> result value;
  (* the URL rebuilt from [session.origin] with [urlsplit]/[urlunsplit] *)
  rebuild_url : string -> value -> result value;
  (* lines 93-102 of [cache_sub_info]: the four texts computed from
     [info] and [opt] with [float], [size2str], [str2timestamp],
     [timestamp2str], [timedelta] and the clock *)
  sub_info_fields : value -> dict -> result (string * string * string * string);
  (* the builtin [int(v)] *)
  py_int : value -> result Z;
  (* [subconverter.gen_base64_and_clash_config], with [host], [base64],
     [clash] and [exclude] *)
  gen_base64_and_clash_config : string -> value -> value -> value -> result value;
  (* whether the module-level name [log] is bound (it is when the file
     runs as a script, to the list the driver passes around) *)
  log_is_global : bool;
  (* [apis.guess_panel(host)] *)
  guess_panel : string -> result dict;
  (* [panel_class_map[g0(cache, 'type')](g0(cache, 'api_host', host),
     **keep(cache, 'auth_path', getitem=g0))] *)
  panel_class : dict -> string -> result session
}.

(** *** Primitive operations on the shared state *)

Abbreviation M := (comp state).

Definition get_cache : M dict := fun st => (st, Ok (cache st)).

Definition get_log : M (list string) := fun st => (st, Ok (log st)).

Definition put_cache (c : dict) : M unit := fun st =>
  (State c (log st) (trace st), Ok tt).

Definition put_log (l : list string) : M unit := fun st =>
  (State (cache st) l (trace st), Ok tt).

(** [cache[k] = v] *)
Definition cache_set (k : string) (v : value) : M unit := fun st =>
  (State (<[k:=v]> (cache st)) (log st) (trace st), Ok tt).

(** [cache.pop(k, None)] *)
Definition cache_pop (k : string) : M unit := fun st =>
  (State (delete k (cache st)) (log st) (trace st), Ok tt).

(** [log.append(s)] *)
Definition log_append (s : string) : M unit := fun st =>
  (State (cache st) (log st ++ [s]) (trace st), Ok tt).

Definition emit (ev : event) : M unit := fun st =>
  (State (cache st) (log st) (trace st ++ [ev]), Ok tt).

(** [d[k]] on a dictionary of the program. *)
Definition lookup_key (d : dict) (k : string) : result value :=
  match d !! k with
  | Some v => Ok v
  | None => Raise (Exc KeyError (repr_str k))
  end.

(** [cache["sub_url"][0]] *)
Definition sub_url0 : M value :=
  c ← get_cache;
  l ← lift (lookup_key c "sub_url");
  lift (getitem0 l).

(** The five failure markers. *)
Definition key_old_failed : string := "更新旧订阅失败".
Definition key_turn_failed : string := "更新订阅链接/续费续签失败".
Definition key_get_failed : string := "获取订阅失败".
Definition key_info_failed : string := "保存订阅信息失败".
Definition key_save_failed : string := "保存base64/clash订阅失败".

Section Pipeline.
Context (E : externals).

(** [get_sub(session, opt, cache, log)] *)
Definition get_sub (session : session) (opt : dict) : M (list value) :=
  emit CallGetSub;;
  url ← sub_url0;
  c ← get_cache;
  name ← lift (g0 E c "name" None);
  suffix ← lift (str_add " - " name);
  _ ← match opt !! "speed_limit" with
      | Some v => t ← lift (str_add " ⚠️限速 " v); mret (suffix +:+ t)
      | None => mret suffix
      end;
  log_append ("开始获取订阅: " +:+ str url);;
  r ← attempt (info ← lift (requests_get_json E url);
               log_append ("成功获取订阅: " +:+ str url);;
               mret [info]);
  match r with
  | inr sub => mret sub
  | inl e =>
      match exc_kind_of e with
      | Timeout =>
          log_append ("获取订阅超时: " +:+ str url);;
          raise e
      | ConnectionError =>
          log_append ("连接错误: " +:+ str url);;
          raise e
      | _ =>
          log_append ("获取订阅失败: " +:+ str url +:+ ", 错误: " +:+ exc_msg e);;
          _ ← lift (rebuild_url E (origin session) url);
          raise e
      end
  end.

(** [turn, *sub = should_turn(session, opt, cache)] *)
Definition call_should_turn (session : session) (opt : dict) : M (value * list value) :=
  c ← get_cache;
  emit (CallShouldTurn c);;
  let '(c', r) := should_turn E session opt c in
  put_cache c';;
  l ← lift r;
  match l with
  | turn :: sub => mret (turn, sub)
  | [] => raise (Exc ValueError "not enough values to unpack (expected at least 1, got 0)")
  end.

(** [do_turn(session, opt, cache, log, force_reg=...)] *)
Definition call_do_turn (session : session) (opt : dict) (force_reg : bool) : M unit :=
  emit (CallDoTurn force_reg);;
  c ← get_cache;
  l ← get_log;
  let '(c', l', r) := do_turn E session opt c l force_reg in
  put_cache c';;
  put_log l';;
  lift r.

(** [try_turn(session, opt, cache, log)]; the result is [None] or the
    list [sub]. *)
Definition try_turn (session : session) (opt : dict) : M (option (list value)) :=
  cache_pop key_old_failed;;
  cache_pop key_turn_failed;;
  cache_pop key_get_failed;;
  log_append ("尝试更新订阅: " +:+ host session);;
  r ← attempt (call_should_turn session opt);
  match r with
  | inl e =>
      cache_set key_old_failed (VList [VStr (exc_msg e)]);;
      url ← sub_url0;
      log_append ("更新旧订阅失败(" +:+ host session +:+ ")(" +:+ str url +:+ "): " +:+ exc_msg e);;
      mret None
  | inr (turn, sub) =>
      if truthy turn then
        r ← attempt (call_do_turn session opt (eq_int turn 2);;
                     log_append ("执行订阅更新成功: " +:+ host session));
        match r with
        | inl e =>
            cache_set key_turn_failed (VList [VStr (exc_msg e)]);;
            log_append ("更新订阅链接/续费续签失败(" +:+ host session +:+ "): " +:+ exc_msg e);;
            mret (Some sub)
        | inr _ =>
            r ← attempt (sub' ← get_sub session opt;
                         log_append ("获取新订阅成功: " +:+ host session);;
                         mret sub');
            match r with
            | inr sub' => mret (Some sub')
            | inl e =>
                cache_set key_get_failed (VList [VStr (exc_msg e)]);;
                url ← sub_url0;
                log_append ("获取订阅失败(" +:+ host session +:+ ")(" +:+ str url +:+ "): " +:+ exc_msg e);;
                mret (Some sub)
            end
        end
      else mret (Some sub)
  end.

(** [cache_sub_info(info, opt, cache, log)] *)
Definition cache_sub_info (info : value) (opt : dict) : M unit :=
  if negb (truthy info) then
    log_append "订阅信息为空";;
    raise (Exc OtherError "no sub info")
  else
    log_append "开始缓存订阅信息";;
    r ← attempt ('(used, total, expire, rest) ← lift (sub_info_fields E info opt);
                 cache_set "sub_info" (VList [VStr used; VStr total; VStr expire; VStr rest]);;
                 log_append "缓存订阅信息成功");
    match r with
    | inr _ => mret tt
    | inl e =>
        match exc_kind_of e with
        | KeyError => log_append ("订阅信息缺少键: " +:+ exc_msg e);; raise e
        | ValueError => log_append ("订阅信息值无效: " +:+ exc_msg e);; raise e
        | _ => raise e
        end
    end.

(** [log.append(s)] where [log] is the module-level name. *)
Definition global_log_append (s : string) : M unit :=
  if log_is_global E then log_append s
  else raise (Exc NameError "name 'log' is not defined").

(** [save_sub_base64_and_clash(base64, clash, host, opt)] *)
Definition save_sub_base64_and_clash (base64 clash : value) (host : string) (opt : dict)
  : M value :=
  global_log_append ("开始保存订阅配置: " +:+ host);;
  r ← attempt (result ← lift (gen_base64_and_clash_config E host base64 clash
                                (default VNone (opt !! "exclude")));
               global_log_append ("保存订阅配置成功: " +:+ host);;
               mret result);
  match r with
  | inr result => mret result
  | inl e =>
      global_log_append ("保存订阅配置失败: " +:+ host +:+ ", 错误: " +:+ exc_msg e);;
      raise e
  end.

(** [node_n - n] *)
Definition sub_int (node_n : value) (n : Z) : result Z :=
  match as_int node_n with
  | Some z => Ok (z - n)
  | None => Raise (Exc TypeError ("unsupported operand type(s) for -: '"
                                  +:+ type_name node_n +:+ "' and 'int'"))
  end.

(** [save_sub(info, base64, clash, base64_url, clash_url, host, opt, cache, log)] *)
Definition save_sub (info base64 clash base64_url clash_url : value) (host : string)
    (opt : dict) : M unit :=
  cache_pop key_info_failed;;
  cache_pop key_save_failed;;
  r ← attempt (cache_sub_info info opt);
  match r with
  | inr _ => mret tt
  | inl e =>
      cache_set key_info_failed (VList [VStr (exc_msg e)]);;
      log_append ("保存订阅信息失败(" +:+ host +:+ ")(" +:+ str clash_url +:+ "): " +:+ exc_msg e)
  end;;
  r ← attempt (node_n ← save_sub_base64_and_clash base64 clash host opt;
               c ← get_cache;
               old ← lift (g0 E c "node_n" (Some (VInt 0)));
               n ← lift (py_int E old);
               d ← lift (sub_int node_n n);
               (if negb (d =? 0) then
                  log_append (host +:+ " 节点数 " +:+ (if 0 <? d then "+" else "")
                              +:+ pretty d +:+ " (" +:+ str node_n +:+ ")")
                else mret tt);;
               cache_set "node_n" (VStr (str node_n)));
  match r with
  | inr _ => mret tt
  | inl e =>
      cache_set key_save_failed (VList [VStr (exc_msg e)]);;
      log_append ("保存base64/clash订阅失败(" +:+ host +:+ ")(" +:+ str base64_url +:+ ")("
                  +:+ str clash_url +:+ "): " +:+ exc_msg e)
  end.

(** The last line of [new_panel_session]: the session object is built
    from the cache. *)
Definition construct_session (host : string) : M (option session) :=
  c ← get_cache;
  emit (CallPanelClass c);;
  s ← lift (panel_class E c host);
  mret (Some s).

(** [new_panel_session(host, cache, log)]; [cache.update(info)] gives the
    entries of [info] priority. *)
Definition new_panel_session (host : string) : M (option session) :=
  c ← get_cache;
  match c !! "type" with
  | Some _ => construct_session host
  | None =>
      info ← lift (guess_panel E host);
      match info !! "type" with
      | None =>
          (if truthy (default VNone (info !! "error")) then
             log_append (host +:+ " 判别类型失败: " +:+ str (default VNone (info !! "error")))
           else
             log_append (host +:+ " 未知类型"));;
          mret None
      | Some _ =>
          put_cache (info ∪ c);;
          construct_session host
      end
  end.

End Pipeline.

(** *** Notions used to state the properties *)

(** The cache once the three markers of [try_turn] are popped. *)
Definition pop_markers (c : dict) : dict :=
  delete key_get_failed (delete key_turn_failed (delete key_old_failed c)).

(** The state in which [try_turn] calls [should_turn], and the trace
    once it has. *)
Definition entry_log (s : session) (st : state) : list string :=
  log st ++ ["尝试更新订阅: " +:+ host s].

Definition entry_trace (st : state) : list event :=
  trace st ++ [CallShouldTurn (pop_markers (cache st))].

(** The state in which [try_turn] calls [get_sub], after a renewal with
    [force_reg] that left the cache [c2] and the log [l2]. *)
Definition fetch_state (s : session) (st : state) (force_reg : bool) (c2 : dict)
    (l2 : list string) : state :=
  State c2 (l2 ++ ["执行订阅更新成功: " +:+ host s])
        (entry_trace st ++ [CallDoTurn force_reg]).

(** The value of [cache["sub_url"][0]] in a cache. *)
Definition read_sub_url (c : dict) : result value :=
  match lookup_key c "sub_url" with
  | Ok l => getitem0 l
  | Raise e => Raise e
  end.

(** The marker value [[str(e)]]. *)
Definition marker (e : exc) : value := VList [VStr (exc_msg e)].

(** Some entry of the cache [c'] is not as it was in [c]: a key was
    written. *)
Definition records_marker (c c' : dict) : Prop :=
  exists k v, c' !! k = Some v /\ c !! k <> Some v.

(** The annotation [list[str]] of the cache entries. *)
Definition str_list (v : value) : bool :=
  match v with
  | VList l => forallb (fun x => match x with VStr _ => true | _ => false end) l
  | _ => false
  end.

Definition well_typed (c : dict) : Prop :=
  forall k v, c !! k = Some v -> str_list v = true.

End GetTrial.

(** ** The API client of [01.py] *)

Module ApiClient.
Import Py.

(** What the code reads of a [requests.Response]: the status code and the
    outcome of [response.json()]. *)
Record response : Type := Response { status_code : Z; json : result value }.

(** [requests.request(method, url, data=..., headers=..., timeout=10)] *)
Record externals : Type := Externals {
  requests_request : string -> string -> value -> value -> result response
}.

Inductive level : Type := INFO | ERROR.

(** The attributes of an [APIClient] and the records handed to the
    [logging] module. *)
Record state : Type := State {
  base_url : string;
  token : value;
  email : value;
  password : value;
  logging : list (level * string)
}.

Abbreviation M := (comp state).

Definition BASE_URL : string := "www.laoniu63.top".

(** [APIClient(email, password)] *)
Definition init (email password : value) : state :=
  State ("https://" +:+ BASE_URL +:+ "/api/v1") VNone email password [].

Definition get_self : M state := fun st => (st, Ok st).

Definition set_token (v : value) : M unit := fun st =>
  (State (base_url st) v (email st) (password st) (logging st), Ok tt).

Definition logging_emit (lv : level) (s : string) : M unit := fun st =>
  (State (base_url st) (token st) (email st) (password st) (logging st ++ [(lv, s)]), Ok tt).

(** [response.raise_for_status()] raises for the 4xx and 5xx codes. *)
Definition is_error_status (code : Z) : bool := (400 <=? code) && (code <? 600).

Section Client.
Context (E : externals).

(** The [except] clauses of [make_request], tried in order; [resp] is
    [e.response], which [raise_for_status] sets and nothing else does. *)
Definition handle_request_error (e : exc) (resp : option response) : M unit :=
  match exc_kind_of e with
  | Timeout => logging_emit ERROR "请求超时，请检查网络连接。"
  | ConnectionError => logging_emit ERROR "无法连接服务器，请稍后重试。"
  | HTTPError =>
      body ← lift (match resp with
                   | Some r => json r
                   | None => Raise (Exc AttributeError
                                      "'NoneType' object has no attribute 'json'")
                   end);
      error_msg ← lift (dict_get body "message" (VStr "未知错误"));
      logging_emit ERROR ("HTTP 错误：" +:+ str error_msg)
  | _ => logging_emit ERROR ("未知错误：" +:+ exc_msg e)
  end.

(** [self.make_request(method, endpoint, data, headers)]; the text of the
    [HTTPError] is not read by its handler. *)
Definition make_request (method endpoint : string) (data headers : value) : M value :=
  self ← get_self;
  let url := base_url self +:+ endpoint in
  match requests_request E method url data headers with
  | Raise e => handle_request_error e None;; mret VNone
  | Ok response =>
      if is_error_status (status_code response) then
        handle_request_error
          (Exc HTTPError (pretty (status_code response) +:+ " Error for url: " +:+ url))
          (Some response);;
        mret VNone
      else
        match json response with
        | Ok v => mret v
        | Raise e => handle_request_error e None;; mret VNone
        end
  end.

(** [self.register_user()] *)
Definition register_user : M unit :=
  self ← get_self;
  let data := VDict [("email", email self); ("password", password self)] in
  result ← make_request "POST" "/passport/auth/register" data VNone;
  if truthy result then logging_emit INFO "注册成功"
  else logging_emit ERROR "注册失败".

(** [self.authenticate_user()] *)
Definition authenticate_user : M unit :=
  self ← get_self;
  let data := VDict [("email", email self); ("password", password self)] in
  result ← make_request "POST" "/passport/auth/login" data VNone;
  if truthy result then
    d ← lift (getitem result "data");
    auth_data ← lift (getitem d "auth_data");
    set_token auth_data;;
    d ← lift (getitem result "data");
    tok ← lift (getitem d "token");
    logging_emit INFO ("登录成功，Token: " +:+ str tok)
  else
    logging_emit ERROR "登录失败";;
    set_token VNone.

End Client.

(** *** Notions used to state the properties *)

(** The state after one record was handed to [logging.error]. *)
Definition logged (st : state) (line : string) : state :=
  State (base_url st) (token st) (email st) (password st) (logging st ++ [(ERROR, line)]).

(** What [requests.request] does in a call of [make_request]. *)
Definition request_outcome (E : externals) (method endpoint : string)
    (data headers : value) (st : state) : result response :=
  requests_request E method (base_url st +:+ endpoint) data headers.

(** The [data] of the login request. *)
Definition login_data (st : state) : value :=
  VDict [("email", email st); ("password", password st)].

End ApiClient.

(** ** Concrete externals, used to run the code on given inputs *)

Module Sample.
Import Py GetTrial.

(** [g0(d, k, default)] as the first element of a non-empty list entry. *)
Definition first_or_default (d : dict) (k : string) (dflt : option value) : result value :=
  Ok (match d !! k with
      | Some (VList (x :: _)) => x
      | _ => default VNone dflt
      end).

Definition int_of (v : value) : result Z :=
  match v with
  | VInt z => Ok z
  | _ => Raise (Exc TypeError "int() argument must be a string or a number")
  end.

(** Externals given by the outcome of the decision, of the renewal, of
    the HTTP fetch and of the file generator. *)
Definition world (decide : dict -> dict * result (list value))
    (renew : dict -> list string -> dict * list string * result unit)
    (fetch gen : result value) (script : bool) : externals :=
  {| should_turn := fun _ _ c => decide c;
     do_turn := fun _ _ c l _ => renew c l;
     g0 := first_or_default;
     requests_get_json := fun _ => fetch;
     rebuild_url := fun _ u => Ok u;
     sub_info_fields := fun _ _ => Ok ("1.0GB", "2.0GB", "永不过期", "(剩余 1.0GB)");
     py_int := int_of;
     gen_base64_and_clash_config := fun _ _ _ _ => gen;
     log_is_global := script;
     guess_panel := fun _ => Ok {[ "type" := VList [VStr "v2board"] ]};
     panel_class := fun _ h => Ok (Session h ("https://" +:+ h)) |}.

Definition boom : exc := Exc OtherError "boom".
Definition timed_out : exc := Exc Timeout "timed out".

Definition no_renewal (c : dict) (l : list string) : dict * list string * result unit :=
  (c, l, Ok tt).

(** The decision step fails. *)
Definition decide_fails : externals :=
  world (fun c => (c, Raise boom)) no_renewal (Ok (VDict [])) (Ok (VInt 5)) true.

(** The decision asks for a renewal, which succeeds and leaves the cache
    as it is; the fetch times out. *)
Definition renew_then_timeout : externals :=
  world (fun c => (c, Ok [VInt 1; VStr "old"])) no_renewal (Raise timed_out)
        (Ok (VInt 5)) true.

(** The decision asks for [turn]; the renewal stores a subscription URL
    and a name, and the fetch returns [info]. *)
Definition renewed (c : dict) : dict :=
  <["sub_url" := VList [VStr "https://example.com/new"]]>
    (<["name" := VList [VStr "example"]]> c).

Definition renew_ok (turn : Z) (info : value) : externals :=
  world (fun c => (c, Ok [VInt turn; VStr "old"])) (fun c l => (renewed c, l, Ok tt))
        (Ok info) (Ok (VInt 5)) true.

(** The renewal fails. *)
Definition renew_fails : externals :=
  world (fun c => (c, Ok [VInt 1; VStr "old"])) (fun c l => (c, l, Raise boom))
        (Ok (VDict [])) (Ok (VInt 5)) true.

(** The generator of the subscription files returns [gen]; [script]
    tells whether the file runs as a script. *)
Definition generator (gen : result value) (script : bool) : externals :=
  world (fun c => (c, Ok [VInt 0; VStr "old"])) no_renewal (Ok (VDict [])) gen script.

(** [E] with another answer of [guess_panel]. *)
Definition with_guess (E : externals) (guess : result dict) : externals :=
  {| should_turn := should_turn E;
     do_turn := do_turn E;
     g0 := g0 E;
     requests_get_json := requests_get_json E;
     rebuild_url := rebuild_url E;
     sub_info_fields := sub_info_fields E;
     py_int := py_int E;
     gen_base64_and_clash_config := gen_base64_and_clash_config E;
     log_is_global := log_is_global E;
     guess_panel := fun _ => guess;
     panel_class := panel_class E |}.

Definition example_session : session := Session "example.com" "https://example.com".

(** The cache of the driver at the end of the script. *)
Definition driver_cache : dict := {[ "sub_url" := VList [VStr "https://example.com/sub"] ]}.

Definition driver_state : state := State driver_cache [] [].

Definition empty_state : state := State ∅ [] [].

End Sample.

Module ApiSample.
Import Py ApiClient.

(** The server answers every request with [resp]. *)
Definition answers (resp : response) : externals :=
  {| requests_request := fun _ _ _ _ => Ok resp |}.

(** The request itself fails with [e]. *)
Definition fails (e : exc) : externals :=
  {| requests_request := fun _ _ _ _ => Raise e |}.

Definition not_json : exc := Exc ValueError "Expecting value: line 1 column 1 (char 0)".

(** A gateway error page that is not JSON. *)
Definition bad_gateway : response := Response 502 (Raise not_json).

(** A refusal with a JSON body. *)
Definition refused : response :=
  Response 422 (Ok (VDict [("message", VStr "邮箱或密码错误")])).

(** A successful login. *)
Definition logged_in : response :=
  Response 200 (Ok (VDict [("data", VDict [("token", VStr "t0"); ("auth_data", VStr "a0")])])).

(** A success whose body is the empty object. *)
Definition empty_object : response := Response 200 (Ok (VDict [])).

Definition client : state := init (VStr "a@qq.com") (VStr "secret").

Definition login_data : value :=
  VDict [("email", VStr "a@qq.com"); ("password", VStr "secret")].

End ApiSample.

(** ** The caller of the pipeline: [get_and_save] *)

Module GetTrialDriver.
Import Py GetTrial.

(** The parameters of [save_sub], in order. *)
Definition save_sub_params : list string :=
  ["info"; "base64"; "clash"; "base64_url"; "clash_url"; "host"; "opt"; "cache"; "log"].

(** The names in the text of a [TypeError] for missing arguments:
    ['a'], ['a' and 'b'], ['a', 'b', and 'c']. *)
Definition quoted_names (names : list string) : string :=
  match names with
  | [] => ""
  | [a] => repr_str a
  | [a; b] => repr_str a +:+ " and " +:+ repr_str b
  | a :: (_ :: _ :: _) as rest =>
      repr_str a +:+ ", " +:+
      (fix tail (l : list string) : string :=
         match l with
         | [] => ""
         | [z] => "and " +:+ repr_str z
         | y :: l' => repr_str y +:+ ", " +:+ tail l'
         end) rest
  end.

(** The [TypeError] of a call of [save_sub] with [n] positional
    arguments, [n] not being 9. *)
Definition arity_error (n : nat) : exc :=
  if decide (n < 9)%nat then
    let missing := drop n save_sub_params in
    Exc TypeError
      ("save_sub() missing " +:+ pretty (length missing) +:+ " required positional argument"
       +:+ (if decide (length missing = 1%nat) then "" else "s") +:+ ": "
       +:+ quoted_names missing)
  else
    Exc TypeError
      ("save_sub() takes 9 positional arguments but " +:+ pretty n +:+ " were given").

Section Driver.
Context (E : externals).

(** [try_checkin(session, opt, cache, log)], assumed to be defined
    elsewhere; it is handed the cache and the log. *)
Context (try_checkin : session -> dict -> dict -> list string ->
                       dict * list string * result unit).

Definition call_try_checkin (session : session) (opt : dict) : M unit :=
  c ← get_cache;
  l ← get_log;
  let '(c', l', r) := try_checkin session opt c l in
  put_cache c';;
  put_log l';;
  lift r.

(** [save_sub] called with [*sub, host, opt, cache, log]: the elements
    of [sub] and the four other arguments fill the nine parameters. *)
Definition save_sub_star (sub : list value) (host : string) (opt : dict) : M unit :=
  match sub with
  | [info; base64; clash; base64_url; clash_url] =>
      save_sub E info base64 clash base64_url clash_url host opt
  | _ => raise (arity_error (length sub + 4))
  end.

(** [get_and_save(session, host, opt, cache, log)] *)
Definition get_and_save (session : session) (host : string) (opt : dict) : M unit :=
  log_append ("开始处理订阅: " +:+ host);;
  call_try_checkin session opt;;
  sub ← try_turn E session opt;
  match sub with
  | Some (x :: l) => save_sub_star (x :: l) host opt
  | _ => mret tt
  end;;
  log_append ("完成处理订阅: " +:+ host).

End Driver.

(** *** Notions used to state the properties *)

(** The state in which [get_and_save] calls [try_turn], after a
    [try_checkin] that left the cache [c] and the log [l]. *)
Definition checked_in (st : state) (c : dict) (l : list string) : state :=
  State c l (trace st).

(** The three markers of [try_turn]. *)
Definition turn_markers : list string :=
  [key_old_failed; key_turn_failed; key_get_failed].

(** The cache in which [save_sub] calls [cache_sub_info]. *)
Definition save_entry (st : state) : state :=
  State (delete key_save_failed (delete key_info_failed (cache st))) (log st) (trace st).

End GetTrialDriver.

(** ** The rest of [01.py]: the subscription link and the random account *)

Module ApiScript.
Import Py ApiClient.

Section Link.
Context (E : externals).

(** [self.get_subscription_link(node_id)] *)
Definition get_subscription_link (node_id : value) : M value :=
  let endpoint := "/user/getSubscribe" in
  let endpoint :=
    if truthy node_id then endpoint +:+ "?node_id=" +:+ str node_id else endpoint in
  self ← get_self;
  let headers := VDict [("Authorization", token self)] in
  result ← make_request E "GET" endpoint VNone headers;
  if truthy result then
    d ← lift (getitem result "data");
    lift (getitem d "subscribe_url")
  else
    logging_emit ERROR "获取订阅链接失败，请稍后再试。";;
    mret VNone.

End Link.

(** The endpoint and the headers of the request that
    [get_subscription_link] sends. *)
Definition link_endpoint (node_id : value) : string :=
  if truthy node_id then "/user/getSubscribe?node_id=" +:+ str node_id
  else "/user/getSubscribe".

Definition link_headers (st : state) : value := VDict [("Authorization", token st)].

(** The [data] of the registration request. *)
Definition register_data (st : state) : value :=
  VDict [("email", email st); ("password", password st)].

(** The state with another token. *)
Definition with_token (st : state) (v : value) : state :=
  State (base_url st) v (email st) (password st) (logging st).

(** What a call of [make_request] that raises has met: the handler of
    [HTTPError] could not read the error body. *)
Definition handler_failed (outcome : result response) (e : exc) : Prop :=
  (exists resp, outcome = Ok resp /\ is_error_status (status_code resp) = true /\
     (json resp = Raise e \/
      exists body, json resp = Ok body /\
                   dict_get body "message" (VStr "未知错误") = Raise e)) \/
  (e = Exc AttributeError "'NoneType' object has no attribute 'json'" /\
   ((exists e0, outcome = Raise e0 /\ exc_kind_of e0 = HTTPError) \/
    (exists resp e0, outcome = Ok resp /\ is_error_status (status_code resp) = false /\
                     json resp = Raise e0 /\ exc_kind_of e0 = HTTPError))).

(** The characters of a string. *)
Definition chars (s : string) : list Ascii.ascii := String.list_ascii_of_string s.

(** [string.ascii_lowercase], [string.ascii_letters] and [string.digits] *)
Definition ascii_lowercase : string := "abcdefghijklmnopqrstuvwxyz".
Definition ascii_uppercase : string := "ABCDEFGHIJKLMNOPQRSTUVWXYZ".
Definition ascii_letters : string := ascii_lowercase +:+ ascii_uppercase.
Definition digits : string := "0123456789".

(** The random generator: the raw draws in the order they are made; the
    state of a computation is the number of draws made so far. *)
Abbreviation R := (comp nat).

Section Random.
Context (draw : nat -> nat).

(** [random.choice(seq)]: the element at an index below [len(seq)], here
    the next draw reduced modulo the length; an empty sequence raises. *)
Definition choice {A} (seq : list A) : R A := fun pos =>
  match seq with
  | [] => (pos, Raise (Exc IndexError "Cannot choose from an empty sequence"))
  | x :: _ => (S pos, Ok (nth (draw pos mod length seq) seq x))
  end.

(** [''.join(random.choice(seq) for _ in range(n))] *)
Fixpoint choices (seq : string) (n : nat) : R string :=
  match n with
  | O => mret ""
  | S n' =>
      c ← choice (String.list_ascii_of_string seq);
      rest ← choices seq n';
      mret (String c rest)
  end.

Definition domains : list string :=
  ["gmail.com"; "qq.com"; "163.com"; "yahoo.com"; "sina.com"; "126.com"; "outlook.com";
   "yeah.net"; "foxmail.com"].

(** [generate_random_email()] *)
Definition generate_random_email : R string :=
  username ← choices ascii_lowercase 8;
  domain ← choice domains;
  mret (username +:+ "@" +:+ domain).

Definition safe_chars : string := ascii_letters +:+ digits +:+ "!@#$%^&*".

(** [generate_random_password()] *)
Definition generate_random_password : R string :=
  choices safe_chars 12.

End Random.

End ApiScript.

(** ** Facts about the pipeline of [get_trial.py] *)

Module GetTrialFacts.
Import Py GetTrial.

Ltac run :=
  unfold mbind, mret, comp_bind, comp_ret, attempt, lift, raise,
    cache_set, cache_pop, log_append, emit, get_cache, get_log, put_cache, put_log;
  cbn [cache log trace fst snd].

Lemma sub_url0_run st : sub_url0 st = (st, read_sub_url (cache st)).
Proof.
  unfold sub_url0, read_sub_url. run.
  destruct (lookup_key (cache st) "sub_url"); reflexivity.
Qed.

Lemma state_eta st : State (cache st) (log st) (trace st) = st.
Proof. destruct st; reflexivity. Qed.

(** [get_sub] never writes to the cache, and it only appends to the log. *)
Lemma get_sub_frame E s opt st :
  exists l r,
    get_sub E s opt st = (State (cache st) (log st ++ l) (trace st ++ [CallGetSub]), r).
Proof.
  unfold get_sub. run. rewrite sub_url0_run. cbn [cache log trace].
  destruct (read_sub_url (cache st)) as [url|e0]; cbn [cache log trace].
  2:{ exists [], (Raise e0). rewrite app_nil_r. reflexivity. }
  destruct (g0 E (cache st) "name" None) as [name|e0].
  2:{ exists [], (Raise e0). rewrite app_nil_r. reflexivity. }
  destruct (str_add " - " name) as [suffix|e0].
  2:{ exists [], (Raise e0). rewrite app_nil_r. reflexivity. }
  destruct (opt !! "speed_limit") as [v|].
  - destruct (str_add " ⚠️限速 " v) as [t|e0].
    2:{ exists [], (Raise e0). rewrite app_nil_r. reflexivity. }
    cbn [cache log trace].
    destruct (requests_get_json E url) as [info|e0]; cbn [cache log trace].
    + eexists _, _. rewrite <- app_assoc. reflexivity.
    + destruct (exc_kind_of e0); cbn [cache log trace];
        try (eexists _, _; rewrite <- app_assoc; reflexivity);
        destruct (rebuild_url E (origin s) url);
        eexists _, _; rewrite <- app_assoc; reflexivity.
  - cbn [cache log trace].
    destruct (requests_get_json E url) as [info|e0]; cbn [cache log trace].
    + eexists _, _. rewrite <- app_assoc. reflexivity.
    + destruct (exc_kind_of e0); cbn [cache log trace];
        try (eexists _, _; rewrite <- app_assoc; reflexivity);
        destruct (rebuild_url E (origin s) url);
        eexists _, _; rewrite <- app_assoc; reflexivity.
Qed.

(** When [cache["sub_url"][0]] cannot be read, [get_sub] raises on its
    first line. *)
Lemma get_sub_unreadable E s opt st e :
  read_sub_url (cache st) = Raise e ->
  get_sub E s opt st = (State (cache st) (log st) (trace st ++ [CallGetSub]), Raise e).
Proof.
  intros H. unfold get_sub. run. rewrite sub_url0_run. cbn [cache]. rewrite H.
  reflexivity.
Qed.

(** *** The three steps of [try_turn] *)

(** The decision step raises: the marker is stored, then the handler
    reads [cache["sub_url"][0]] for its log line. *)
Lemma try_turn_decide_raises E s opt st c1 e :
  should_turn E s opt (pop_markers (cache st)) = (c1, Raise e) ->
  try_turn E s opt st =
    let c1' := <[key_old_failed := marker e]> c1 in
    match read_sub_url c1' with
    | Ok url =>
        (State c1'
           (entry_log s st ++
              ["更新旧订阅失败(" +:+ host s +:+ ")(" +:+ str url +:+ "): " +:+ exc_msg e])
           (entry_trace st), Ok None)
    | Raise e' => (State c1' (entry_log s st) (entry_trace st), Raise e')
    end.
Proof.
  intros H. unfold try_turn, call_should_turn. run.
  fold (pop_markers (cache st)). rewrite H. run.
  rewrite sub_url0_run. cbn [cache log trace]. unfold marker.
  destruct (read_sub_url _); reflexivity.
Qed.

(** The decision step returns nothing to unpack: handled as a failure. *)
Lemma try_turn_decide_empty E s opt st c1 :
  should_turn E s opt (pop_markers (cache st)) = (c1, Ok []) ->
  exists e, exc_kind_of e = ValueError /\
    cache (try_turn E s opt st).1 !! key_old_failed = Some (marker e).
Proof.
  intros H. eexists (Exc ValueError _). split; [reflexivity|].
  unfold try_turn, call_should_turn. run.
  fold (pop_markers (cache st)). rewrite H. run.
  rewrite sub_url0_run. cbn [cache log trace].
  destruct (read_sub_url _); cbn [fst cache]; apply lookup_insert_eq.
Qed.

(** No renewal is asked for. *)
Lemma try_turn_no_turn E s opt st c1 turn sub :
  should_turn E s opt (pop_markers (cache st)) = (c1, Ok (turn :: sub)) ->
  truthy turn = false ->
  try_turn E s opt st = (State c1 (entry_log s st) (entry_trace st), Ok (Some sub)).
Proof.
  intros H Ht. unfold try_turn, call_should_turn. run.
  fold (pop_markers (cache st)). rewrite H. run. rewrite Ht. reflexivity.
Qed.

(** The renewal raises. *)
Lemma try_turn_renew_raises E s opt st c1 turn sub c2 l2 e :
  should_turn E s opt (pop_markers (cache st)) = (c1, Ok (turn :: sub)) ->
  truthy turn = true ->
  do_turn E s opt c1 (entry_log s st) (eq_int turn 2) = (c2, l2, Raise e) ->
  try_turn E s opt st =
    (State (<[key_turn_failed := marker e]> c2)
           (l2 ++ ["更新订阅链接/续费续签失败(" +:+ host s +:+ "): " +:+ exc_msg e])
           (entry_trace st ++ [CallDoTurn (eq_int turn 2)]),
     Ok (Some sub)).
Proof.
  intros H Ht Hd. unfold try_turn, call_should_turn, call_do_turn. run.
  fold (pop_markers (cache st)). rewrite H. run. rewrite Ht. run.
  fold (entry_log s st). rewrite Hd. reflexivity.
Qed.

(** The renewal succeeds and so does the fetch. *)
Lemma try_turn_fetch_ok E s opt st c1 turn sub c2 l2 st3 sub' :
  should_turn E s opt (pop_markers (cache st)) = (c1, Ok (turn :: sub)) ->
  truthy turn = true ->
  do_turn E s opt c1 (entry_log s st) (eq_int turn 2) = (c2, l2, Ok tt) ->
  get_sub E s opt (fetch_state s st (eq_int turn 2) c2 l2) = (st3, Ok sub') ->
  try_turn E s opt st =
    (State (cache st3) (log st3 ++ ["获取新订阅成功: " +:+ host s]) (trace st3),
     Ok (Some sub')).
Proof.
  intros H Ht Hd Hg. unfold try_turn, call_should_turn, call_do_turn. run.
  fold (pop_markers (cache st)). rewrite H. run. rewrite Ht. run.
  fold (entry_log s st). rewrite Hd. run.
  fold (entry_trace st). fold (fetch_state s st (eq_int turn 2) c2 l2).
  rewrite Hg. reflexivity.
Qed.

(** The renewal succeeds and the fetch raises: the marker is stored, then
    the handler reads [cache["sub_url"][0]] for its log line. *)
Lemma try_turn_fetch_raises E s opt st c1 turn sub c2 l2 st3 e :
  should_turn E s opt (pop_markers (cache st)) = (c1, Ok (turn :: sub)) ->
  truthy turn = true ->
  do_turn E s opt c1 (entry_log s st) (eq_int turn 2) = (c2, l2, Ok tt) ->
  get_sub E s opt (fetch_state s st (eq_int turn 2) c2 l2) = (st3, Raise e) ->
  try_turn E s opt st =
    let c3 := <[key_get_failed := marker e]> (cache st3) in
    match read_sub_url c3 with
    | Ok url =>
        (State c3
           (log st3 ++
              ["获取订阅失败(" +:+ host s +:+ ")(" +:+ str url +:+ "): " +:+ exc_msg e])
           (trace st3), Ok (Some sub))
    | Raise e' => (State c3 (log st3) (trace st3), Raise e')
    end.
Proof.
  intros H Ht Hd Hg. unfold try_turn, call_should_turn, call_do_turn. run.
  fold (pop_markers (cache st)). rewrite H. run. rewrite Ht. run.
  fold (entry_log s st). rewrite Hd. run.
  fold (entry_trace st). fold (fetch_state s st (eq_int turn 2) c2 l2).
  rewrite Hg. run. rewrite sub_url0_run. cbn [cache log trace]. unfold marker.
  destruct (read_sub_url _); reflexivity.
Qed.

Lemma read_sub_url_insert c k v :
  k <> "sub_url" -> read_sub_url (<[k:=v]> c) = read_sub_url c.
Proof.
  intros Hk. unfold read_sub_url, lookup_key. rewrite lookup_insert_ne by done.
  reflexivity.
Qed.

Lemma lookup_pop_markers c k :
  pop_markers c !! k =
    if bool_decide (k ∈ [key_old_failed; key_turn_failed; key_get_failed])
    then None else c !! k.
Proof.
  unfold pop_markers. rewrite !lookup_delete.
  case_bool_decide as Hk; repeat case_decide; try reflexivity.
  1: { rewrite !elem_of_cons in Hk. rewrite elem_of_nil in Hk. intuition congruence. }
  all: exfalso; apply Hk; rewrite !elem_of_cons; auto.
Qed.

(** What [try_turn] does when the decision step raises and the handler
    can read [cache["sub_url"][0]]. *)
Lemma try_turn_decide_raises_readable E s opt st c1 e url :
  should_turn E s opt (pop_markers (cache st)) = (c1, Raise e) ->
  read_sub_url c1 = Ok url ->
  let r := try_turn E s opt st in
  r.2 = Ok None /\
  trace r.1 = entry_trace st /\
  cache r.1 = <[key_old_failed := marker e]> c1.
Proof.
  intros H Hu r. subst r. rewrite (try_turn_decide_raises _ _ _ _ _ _ H).
  cbv zeta. rewrite read_sub_url_insert by done. rewrite Hu. auto.
Qed.

(** Whether or not the handler can build its log line, a decision step
    that raises leaves the marker in the cache and is the only call
    made; [try_turn] then returns [None] or passes on the failed read. *)
Lemma try_turn_decide_raises_effects E s opt st c1 e :
  should_turn E s opt (pop_markers (cache st)) = (c1, Raise e) ->
  let r := try_turn E s opt st in
  trace r.1 = entry_trace st /\
  cache r.1 = <[key_old_failed := marker e]> c1 /\
  (r.2 = Ok None \/ exists e', r.2 = Raise e' /\ read_sub_url c1 = Raise e').
Proof.
  intros H r. subst r. rewrite (try_turn_decide_raises _ _ _ _ _ _ H).
  cbv zeta. rewrite read_sub_url_insert by done.
  destruct (read_sub_url c1) as [url|e']; cbn [fst snd cache trace]; eauto 6.
Qed.

(** The only exception [try_turn] lets through is the one raised by
    reading [cache["sub_url"][0]] in one of its two handlers. *)
Lemma try_turn_raises_only_on_sub_url E s opt st e' :
  (try_turn E s opt st).2 = Raise e' ->
  read_sub_url (cache (try_turn E s opt st).1) = Raise e'.
Proof.
  destruct (should_turn E s opt (pop_markers (cache st))) as [c1 [[|turn sub]|e]] eqn:H.
  - unfold try_turn, call_should_turn. run.
    fold (pop_markers (cache st)). rewrite H. run.
    rewrite sub_url0_run. cbn [cache log trace].
    destruct (read_sub_url _) eqn:Hr; cbn [fst snd cache]; congruence.
  - destruct (truthy turn) eqn:Ht.
    2:{ rewrite (try_turn_no_turn _ _ _ _ _ _ _ H Ht). discriminate. }
    destruct (do_turn E s opt c1 (entry_log s st) (eq_int turn 2))
      as [[c2 l2] [[]|e]] eqn:Hd.
    2:{ rewrite (try_turn_renew_raises _ _ _ _ _ _ _ _ _ _ H Ht Hd). discriminate. }
    destruct (get_sub E s opt (fetch_state s st (eq_int turn 2) c2 l2))
      as [st3 [sub'|e]] eqn:Hg.
    + rewrite (try_turn_fetch_ok _ _ _ _ _ _ _ _ _ _ _ H Ht Hd Hg). discriminate.
    + rewrite (try_turn_fetch_raises _ _ _ _ _ _ _ _ _ _ _ H Ht Hd Hg). cbv zeta.
      destruct (read_sub_url _) eqn:Hr; cbn [fst snd cache]; congruence.
  - rewrite (try_turn_decide_raises _ _ _ _ _ _ H). cbv zeta.
    destruct (read_sub_url _) eqn:Hr; cbn [fst snd cache]; congruence.
Qed.

(** The trace of a call of [get_sub]. *)
Lemma get_sub_trace E s opt st st' r :
  get_sub E s opt st = (st', r) -> trace st' = trace st ++ [CallGetSub].
Proof.
  intros H. destruct (get_sub_frame E s opt st) as (l & r' & Hf).
  rewrite H in Hf. injection Hf as -> _. reflexivity.
Qed.

(** C3. [try_turn] first removes the three failure markers, and only
    them, from the cache that [should_turn] then sees.  When [should_turn]
    returns [(turn, *sub)]: with [turn = 0] there is no further call and
    [sub] is returned; with [turn = 1] the next call is [do_turn] with
    [force_reg=False], with [turn = 2] it is [do_turn] with
    [force_reg=True]; and in both cases a [do_turn] that returns is
    followed by [get_sub], whose result, when it returns one, is what
    [try_turn] returns in place of [sub]. *)
Theorem try_turn_decision_protocol E s opt st c1 turn sub :
  should_turn E s opt (pop_markers (cache st)) = (c1, Ok (turn :: sub)) ->
  (forall k, pop_markers (cache st) !! k =
     if bool_decide (k ∈ [key_old_failed; key_turn_failed; key_get_failed])
     then None else cache st !! k) /\
  (turn = VInt 0 ->
     try_turn E s opt st = (State c1 (entry_log s st) (entry_trace st), Ok (Some sub))) /\
  (forall n, turn = VInt n -> n = 1 \/ n = 2 ->
     exists rest,
       trace (try_turn E s opt st).1
       = entry_trace st ++ CallDoTurn (bool_decide (n = 2)) :: rest) /\
  (forall n c2 l2 st3 sub', turn = VInt n -> n = 1 \/ n = 2 ->
     do_turn E s opt c1 (entry_log s st) (bool_decide (n = 2)) = (c2, l2, Ok tt) ->
     get_sub E s opt (fetch_state s st (bool_decide (n = 2)) c2 l2) = (st3, Ok sub') ->
     try_turn E s opt st
     = (State (cache st3) (log st3 ++ ["获取新订阅成功: " +:+ host s])
              (entry_trace st ++ [CallDoTurn (bool_decide (n = 2)); CallGetSub]),
        Ok (Some sub'))).
Proof.
  intros H. split; [|split; [|split]].
  - intros k. apply lookup_pop_markers.
  - intros ->. apply (try_turn_no_turn E s opt st c1 (VInt 0) sub H). reflexivity.
  - intros n -> Hn.
    assert (Ht : truthy (VInt n) = true) by (destruct Hn; subst n; reflexivity).
    assert (Hb : eq_int (VInt n) 2 = bool_decide (n = 2))
      by (destruct Hn; subst n; reflexivity).
    rewrite <- Hb. clear Hb.
    destruct (do_turn E s opt c1 (entry_log s st) (eq_int (VInt n) 2))
      as [[c2 l2] [[]|e]] eqn:Hd.
    2:{ rewrite (try_turn_renew_raises _ _ _ _ _ _ _ _ _ _ H Ht Hd).
        exists []. reflexivity. }
    destruct (get_sub E s opt (fetch_state s st (eq_int (VInt n) 2) c2 l2))
      as [st3 r] eqn:Hg.
    pose proof (get_sub_trace _ _ _ _ _ _ Hg) as Htr.
    exists [CallGetSub]. destruct r as [sub'|e].
    + rewrite (try_turn_fetch_ok _ _ _ _ _ _ _ _ _ _ _ H Ht Hd Hg).
      cbn [fst trace]. rewrite Htr. unfold fetch_state. cbn [trace].
      rewrite <- app_assoc. reflexivity.
    + rewrite (try_turn_fetch_raises _ _ _ _ _ _ _ _ _ _ _ H Ht Hd Hg). cbv zeta.
      destruct (read_sub_url _); cbn [fst trace]; rewrite Htr;
        unfold fetch_state; cbn [trace]; rewrite <- app_assoc; reflexivity.
  - intros n c2 l2 st3 sub' -> Hn Hd Hg.
    assert (Ht : truthy (VInt n) = true) by (destruct Hn; subst n; reflexivity).
    assert (Hb : eq_int (VInt n) 2 = bool_decide (n = 2))
      by (destruct Hn; subst n; reflexivity).
    rewrite <- Hb in *. clear Hb.
    rewrite (try_turn_fetch_ok _ _ _ _ _ _ _ _ _ _ _ H Ht Hd Hg).
    rewrite (get_sub_trace _ _ _ _ _ _ Hg). unfold fetch_state. cbn [trace].
    rewrite <- app_assoc. reflexivity.
Qed.

Lemma try_turn_decision_protocol_witness :
  let E := Sample.renew_ok 2 (VDict [("total", VStr "1")]) in
  let st := State (<[key_get_failed := VList [VStr "stale"]]> Sample.driver_cache) [] [] in
  should_turn E Sample.example_session ∅ (pop_markers (cache st))
  = (Sample.driver_cache, Ok [VInt 2; VStr "old"]) /\
  pop_markers (cache st) !! key_get_failed = None /\
  (try_turn E Sample.example_session ∅ st).2 = Ok (Some [VDict [("total", VStr "1")]]) /\
  trace (try_turn E Sample.example_session ∅ st).1
  = [CallShouldTurn Sample.driver_cache; CallDoTurn true; CallGetSub].
Proof.
  intros E st.
  assert (H0 : should_turn E Sample.example_session ∅ (pop_markers (cache st))
               = (Sample.driver_cache, Ok [VInt 2; VStr "old"])) by (vm_compute; reflexivity).
  split; [exact H0|].
  destruct (try_turn_decision_protocol E Sample.example_session ∅ st _ _ _ H0)
    as (Hpop & _ & _ & Hfetch).
  split.
  { rewrite Hpop. case_bool_decide as Hk; [reflexivity|].
    exfalso. apply Hk. rewrite !elem_of_cons. auto. }
  erewrite (Hfetch 2);
    [| reflexivity | right; reflexivity | vm_compute; reflexivity
     | vm_compute; reflexivity].
  split; [reflexivity|]. vm_compute. reflexivity.
Defined.

(** C1. The decision step raises on an empty cache: the marker is
    stored and neither [do_turn] nor [get_sub] is called, but the handler
    then fails to read [cache["sub_url"][0]], so [try_turn] raises
    [KeyError('sub_url')] where the claim has it return [None]. *)
Theorem try_turn_decide_raises_without_sub_url :
  let r := try_turn Sample.decide_fails Sample.example_session ∅ Sample.empty_state in
  r.2 = Raise (Exc KeyError "'sub_url'") /\
  cache r.1 = {[ key_old_failed := VList [VStr "boom"] ]} /\
  trace r.1 = [CallShouldTurn ∅].
Proof. vm_compute. auto. Qed.

(** C2. The renewal returns and leaves the empty cache without a
    subscription URL; [get_sub] raises [KeyError('sub_url')], the marker
    is stored, and the handler fails on the same read: [try_turn] raises
    where the claim has it return the [sub] of [should_turn]. *)
Theorem try_turn_fetch_raises_without_sub_url :
  let r := try_turn Sample.renew_then_timeout Sample.example_session ∅ Sample.empty_state in
  r.2 = Raise (Exc KeyError "'sub_url'") /\
  cache r.1 = {[ key_get_failed := VList [VStr "'sub_url'"] ]} /\
  trace r.1 = [CallShouldTurn ∅; CallDoTurn false; CallGetSub].
Proof. vm_compute. auto. Qed.

(** *** [cache_sub_info] and [save_sub] *)

(** C6. On a falsy [info], [cache_sub_info] logs one line and raises
    [Exception('no sub info')]; the cache, and with it any ['sub_info']
    entry, is left as it was. *)
Theorem cache_sub_info_empty E info opt st :
  truthy info = false ->
  cache_sub_info E info opt st
  = (State (cache st) (log st ++ ["订阅信息为空"]) (trace st),
     Raise (Exc OtherError "no sub info")).
Proof. intros H. unfold cache_sub_info. rewrite H. reflexivity. Qed.

Lemma cache_sub_info_empty_witness :
  truthy (VDict []) = false /\
  let st := State {[ "sub_info" := VList [VStr "old"] ]} [] [] in
  (cache_sub_info Sample.decide_fails (VDict []) ∅ st).2 = Raise (Exc OtherError "no sub info") /\
  cache (cache_sub_info Sample.decide_fails (VDict []) ∅ st).1 !! "sub_info"
  = Some (VList [VStr "old"]).
Proof.
  split; [reflexivity|]. intros st.
  rewrite (cache_sub_info_empty Sample.decide_fails (VDict []) ∅ st eq_refl).
  split; reflexivity.
Defined.

(** A call of [cache_sub_info] that raises has not touched the cache. *)
Lemma cache_sub_info_raises_frame E info opt st st' e :
  cache_sub_info E info opt st = (st', Raise e) -> cache st' = cache st.
Proof.
  unfold cache_sub_info. destruct (truthy info); cbn [negb]; run.
  - destruct (sub_info_fields E info opt) as [[[[used total] expire] rest]|e0]; run.
    + discriminate.
    + destruct (exc_kind_of e0); run; intros [= <- _]; reflexivity.
  - intros [= <- _]. reflexivity.
Qed.

(** A call of [cache_sub_info] that returns has stored ['sub_info'], a
    list of four strings, and nothing else. *)
Lemma cache_sub_info_returns_frame E info opt st st' :
  cache_sub_info E info opt st = (st', Ok tt) ->
  exists used total expire rest,
    cache st' = <["sub_info" := VList [VStr used; VStr total; VStr expire; VStr rest]]> (cache st).
Proof.
  unfold cache_sub_info. destruct (truthy info); cbn [negb]; run.
  - destruct (sub_info_fields E info opt) as [[[[used total] expire] rest]|e0]; run.
    + intros [= <-]. eauto.
    + destruct (exc_kind_of e0); run; discriminate.
  - discriminate.
Qed.

(** [save_sub_base64_and_clash] is not handed the cache. *)
Lemma save_sub_base64_and_clash_frame E base64 clash host opt st :
  cache (save_sub_base64_and_clash E base64 clash host opt st).1 = cache st.
Proof.
  unfold save_sub_base64_and_clash, global_log_append.
  destruct (log_is_global E); run; [|reflexivity].
  destruct (gen_base64_and_clash_config E host base64 clash _); reflexivity.
Qed.

(** C8. [save_sub] first pops its two markers and nothing else.  The
    step around [cache_sub_info], when that call raises, writes the
    marker ['保存订阅信息失败'] and nothing else, so ['sub_info'] is as
    before.  The step around [save_sub_base64_and_clash], when that call
    raises, writes the marker ['保存base64/clash订阅失败'] and nothing else,
    so ['node_n'] is as before; when it returns, the step writes either
    ['node_n'] or, if comparing the node counts raises, that same marker. *)
Theorem save_sub_frame E info base64 clash base64_url clash_url h opt st stb r1 std r2 :
  let sta :=
    State (delete key_save_failed (delete key_info_failed (cache st))) (log st) (trace st) in
  cache_sub_info E info opt sta = (stb, r1) ->
  let stc :=
    match r1 with
    | Ok _ => stb
    | Raise e =>
        State (<[key_info_failed := marker e]> (cache stb))
              (log stb ++ ["保存订阅信息失败(" +:+ h +:+ ")(" +:+ str clash_url +:+ "): "
                           +:+ exc_msg e])
              (trace stb)
    end in
  save_sub_base64_and_clash E base64 clash h opt stc = (std, r2) ->
  let final := cache (save_sub E info base64 clash base64_url clash_url h opt st).1 in
  (forall k, cache sta !! k =
     if bool_decide (k ∈ [key_info_failed; key_save_failed]) then None else cache st !! k) /\
  (forall e, r1 = Raise e ->
     cache stc = <[key_info_failed := marker e]> (cache sta) /\
     cache stc !! "sub_info" = cache st !! "sub_info") /\
  (forall e, r2 = Raise e ->
     final = <[key_save_failed := marker e]> (cache stc) /\
     final !! "node_n" = cache st !! "node_n") /\
  (forall node_n, r2 = Ok node_n ->
     final = <["node_n" := VStr (str node_n)]> (cache stc) \/
     exists e, final = <[key_save_failed := marker e]> (cache stc)).
Proof.
  intros sta H1 stc H2 final.
  assert (Hpop : forall k, cache sta !! k =
            if bool_decide (k ∈ [key_info_failed; key_save_failed])
            then None else cache st !! k).
  { intros k. subst sta. cbn [cache]. rewrite !lookup_delete.
    case_bool_decide as Hk; repeat case_decide; try reflexivity.
    1: { rewrite !elem_of_cons in Hk. rewrite elem_of_nil in Hk. intuition congruence. }
    all: exfalso; apply Hk; rewrite !elem_of_cons; auto. }
  assert (Hstc : forall e, r1 = Raise e ->
            cache stc = <[key_info_failed := marker e]> (cache sta)).
  { intros e ->. subst stc. cbn [cache].
    rewrite (cache_sub_info_raises_frame _ _ _ _ _ _ H1). reflexivity. }
  assert (Hfin : match r2 with
                 | Raise e => final = <[key_save_failed := marker e]> (cache stc)
                 | Ok node_n =>
                     final = <["node_n" := VStr (str node_n)]> (cache stc) \/
                     exists e, final = <[key_save_failed := marker e]> (cache stc)
                 end).
  { assert (Hc : cache std = cache stc).
    { rewrite <- (save_sub_base64_and_clash_frame E base64 clash h opt stc), H2.
      reflexivity. }
    clear Hpop Hstc. subst final. unfold save_sub. run. fold sta. rewrite H1.
    unfold marker in *.
    destruct r1 as [[]|e1]; subst stc; run; rewrite H2.
    all: destruct r2 as [node_n|e2]; run; [|rewrite Hc; reflexivity].
    all: destruct (g0 E (cache std) "node_n" (Some (VInt 0))) as [old|e]; run;
      [|rewrite Hc; right; eexists; reflexivity].
    all: destruct (py_int E old) as [n|e]; run;
      [|rewrite Hc; right; eexists; reflexivity].
    all: destruct (sub_int node_n n) as [d|e]; run;
      [|rewrite Hc; right; eexists; reflexivity].
    all: destruct (negb (d =? 0)); run; rewrite Hc; left; reflexivity. }
  split; [exact Hpop|]. split; [|split].
  - intros e Hr. split; [exact (Hstc e Hr)|].
    rewrite (Hstc e Hr), lookup_insert_ne by done. rewrite Hpop.
    case_bool_decide as Hk; [|reflexivity].
    rewrite !elem_of_cons in Hk. rewrite elem_of_nil in Hk.
    destruct Hk as [Hk|[Hk|[]]]; discriminate Hk.
  - intros e ->. split; [exact Hfin|]. rewrite Hfin, lookup_insert_ne by done.
    destruct r1 as [[]|e1].
    + subst stc. 
      destruct (cache_sub_info_returns_frame _ _ _ _ _ H1) as (u & t & x & r & ->).
      rewrite lookup_insert_ne by done. rewrite Hpop.
      case_bool_decide as Hk; [|reflexivity].
      rewrite !elem_of_cons in Hk. rewrite elem_of_nil in Hk.
      destruct Hk as [Hk|[Hk|[]]]; discriminate Hk.
    + rewrite (Hstc e1 eq_refl), lookup_insert_ne by done. rewrite Hpop.
      case_bool_decide as Hk; [|reflexivity].
      rewrite !elem_of_cons in Hk. rewrite elem_of_nil in Hk.
      destruct Hk as [Hk|[Hk|[]]]; discriminate Hk.
  - intros node_n ->. exact Hfin.
Qed.

Lemma save_sub_frame_witness :
  let E := Sample.generator (Ok (VInt 5)) true in
  let st := State (<["sub_info" := VList [VStr "old"]]> Sample.driver_cache) [] [] in
  let stb := State (cache st) ["订阅信息为空"] [] in
  let e := Exc OtherError "no sub info" in
  let stc := State (<[key_info_failed := marker e]> (cache st))
                   ["订阅信息为空"; "保存订阅信息失败(example.com)(c): no sub info"] [] in
  cache_sub_info E (VDict []) ∅ (State (cache st) [] []) = (stb, Raise e) /\
  cache stc !! "sub_info" = Some (VList [VStr "old"]) /\
  cache (save_sub E (VDict []) VNone VNone (VStr "b") (VStr "c") "example.com" ∅ st).1
  !! "node_n" = Some (VStr "5").
Proof.
  intros E st stb e stc.
  assert (H1 : cache_sub_info E (VDict []) ∅
                 (State (delete key_save_failed (delete key_info_failed (cache st)))
                    (log st) (trace st)) = (stb, Raise e))
    by (vm_compute; reflexivity).
  split; [vm_compute; reflexivity|].
  eassert (H2 : save_sub_base64_and_clash E VNone VNone "example.com" ∅ stc = (_, _))
    by (vm_compute; reflexivity).
  destruct (save_sub_frame E (VDict []) VNone VNone (VStr "b") (VStr "c") "example.com"
              ∅ st stb (Raise e) _ _ H1 H2) as (_ & Hinfo & _ & Hnode).
  destruct (Hinfo e eq_refl) as [_ Hsub]. split; [exact Hsub|].
  destruct (Hnode _ eq_refl) as [->|[e' He']]; [reflexivity|].
  vm_compute in He'. discriminate He'.
Defined.

(** [save_sub] returns whatever its callees do. *)
Lemma save_sub_returns E info base64 clash base64_url clash_url h opt st :
  (save_sub E info base64 clash base64_url clash_url h opt st).2 = Ok tt.
Proof.
  unfold save_sub. run.
  destruct (cache_sub_info E info opt _) as [stb [[]|e1]]; run.
  all: destruct (save_sub_base64_and_clash E base64 clash h opt _) as [std [node_n|e2]];
    run; [|reflexivity].
  all: destruct (g0 E (cache std) "node_n" (Some (VInt 0))) as [old|e]; run; [|reflexivity].
  all: destruct (py_int E old) as [n|e]; run; [|reflexivity].
  all: destruct (sub_int node_n n) as [d|e]; run; [|reflexivity].
  all: destruct (negb (d =? 0)); reflexivity.
Qed.

(** C5. [save_sub] never raises, whatever its callees do; [try_turn]
    does: with a cache whose ['sub_url'] list is empty and a decision
    step that raises, the handler's own read of [cache["sub_url"][0]]
    raises [IndexError], which [try_turn] passes on to its caller. *)
Theorem stages_swallow_all_but_sub_url :
  (forall E info base64 clash base64_url clash_url h opt st,
     (save_sub E info base64 clash base64_url clash_url h opt st).2 = Ok tt) /\
  (try_turn Sample.decide_fails Sample.example_session ∅
     (State {[ "sub_url" := VList [] ]} [] [])).2
  = Raise (Exc IndexError "list index out of range").
Proof. split; [apply save_sub_returns | vm_compute; reflexivity]. Qed.

(** The markers [try_turn] and [save_sub] write, and the entry
    [cache_sub_info] writes, are lists of strings. *)
Lemma marker_str_list e : str_list (marker e) = true.
Proof. reflexivity. Qed.

Lemma well_typed_insert c k v :
  well_typed c -> str_list v = true -> well_typed (<[k:=v]> c).
Proof.
  intros Hc Hv k' v'. rewrite lookup_insert. case_decide.
  - intros [= <-]. exact Hv.
  - apply Hc.
Qed.

Lemma well_typed_delete c k : well_typed c -> well_typed (delete k c).
Proof.
  intros Hc k' v'. rewrite lookup_delete. case_decide; [discriminate|apply Hc].
Qed.

Lemma cache_sub_info_well_typed E info opt st :
  well_typed (cache st) -> well_typed (cache (cache_sub_info E info opt st).1).
Proof.
  intros Hc. destruct (cache_sub_info E info opt st) as [st' [[]|e]] eqn:H; cbn [fst].
  - destruct (cache_sub_info_returns_frame _ _ _ _ _ H) as (u & t & x & r & ->).
    apply well_typed_insert; [exact Hc | reflexivity].
  - rewrite (cache_sub_info_raises_frame _ _ _ _ _ _ H). exact Hc.
Qed.

(** C4. Run by the script on the cache of its driver, [save_sub] stores
    the node count as the bare string ['5'] under ['node_n']: the cache,
    whose entries were all lists of strings, no longer is. *)
Theorem save_sub_stores_bare_string :
  let st' := (save_sub (Sample.generator (Ok (VInt 5)) true) (VDict [("total", VStr "1")])
                VNone VNone (VStr "b") (VStr "c") "example.com" ∅ Sample.driver_state).1 in
  well_typed (cache Sample.driver_state) /\
  cache st' !! "node_n" = Some (VStr "5") /\
  ~ well_typed (cache st').
Proof.
  intros st'.
  assert (Hn : cache st' !! "node_n" = Some (VStr "5")) by (vm_compute; reflexivity).
  split; [|split; [exact Hn|]].
  - intros k v. unfold Sample.driver_state, Sample.driver_cache. cbn [cache].
    rewrite lookup_singleton_Some. intros [_ <-]. reflexivity.
  - intros Hw. specialize (Hw _ _ Hn). discriminate Hw.
Qed.

(** *** [new_panel_session] *)

(** C9. With no ['type'] in the cache, [new_panel_session] asks
    [guess_panel].  An answer without ['type'] is logged, [None] is
    returned and the cache is untouched.  An answer with ['type'] is
    merged whole into the cache, and the session is then built from the
    merged cache. *)
Theorem new_panel_session_guess E h st info :
  cache st !! "type" = None ->
  guess_panel E h = Ok info ->
  (info !! "type" = None ->
     exists line,
       new_panel_session E h st = (State (cache st) (log st ++ [line]) (trace st), Ok None)) /\
  (is_Some (info !! "type") ->
     let c' := info ∪ cache st in
     (forall k v, info !! k = Some v -> c' !! k = Some v) /\
     (forall k, info !! k = None -> c' !! k = cache st !! k) /\
     new_panel_session E h st
     = (State c' (log st) (trace st ++ [CallPanelClass c']),
        match panel_class E c' h with
        | Ok s => Ok (Some s)
        | Raise e => Raise e
        end)).
Proof.
  intros Hc Hg. split.
  - intros Hi. unfold new_panel_session. run. rewrite Hc. run. rewrite Hg, Hi.
    destruct (truthy _); run; eexists; reflexivity.
  - intros [t Ht] c'. split; [|split].
    + intros k v Hk. subst c'. apply lookup_union_Some_l. exact Hk.
    + intros k Hk. subst c'. apply lookup_union_r. exact Hk.
    + unfold new_panel_session, construct_session. run. rewrite Hc. run.
      rewrite Hg, Ht. run. fold c'. destruct (panel_class E c' h); reflexivity.
Qed.

Lemma new_panel_session_guess_witness :
  let E1 := Sample.with_guess Sample.decide_fails (Ok {[ "error" := VStr "timeout" ]}) in
  let E2 := Sample.decide_fails in
  let c' : dict := {[ "type" := VList [VStr "v2board"] ]} ∪ Sample.driver_cache in
  Sample.driver_cache !! "type" = None /\
  new_panel_session E1 "example.com" Sample.driver_state
  = (State Sample.driver_cache ["example.com 判别类型失败: timeout"] [], Ok None) /\
  new_panel_session E2 "example.com" Sample.driver_state
  = (State c' [] [CallPanelClass c'],
     Ok (Some (Session "example.com" "https://example.com"))).
Proof.
  intros E1 E2 c'.
  assert (Hc : cache Sample.driver_state !! "type" = None) by reflexivity.
  split; [exact Hc|]. split.
  - destruct (new_panel_session_guess E1 "example.com" Sample.driver_state
                {[ "error" := VStr "timeout" ]} Hc eq_refl) as [Hnone _].
    destruct (Hnone eq_refl) as [line Hl]. rewrite Hl.
    vm_compute in Hl. injection Hl as <-. reflexivity.
  - destruct (new_panel_session_guess E2 "example.com" Sample.driver_state
                {[ "type" := VList [VStr "v2board"] ]} Hc eq_refl) as [_ Hsome].
    destruct (Hsome (ltac:(eexists; reflexivity))) as (_ & _ & ->). reflexivity.
Defined.

End GetTrialFacts.

(** ** Facts about the client of [01.py] *)

Module ApiClientFacts.
Import Py ApiClient.

Ltac run :=
  unfold mbind, mret, comp_bind, comp_ret, attempt, lift, raise,
    get_self, set_token, logging_emit;
  cbn [base_url token email password logging fst snd].

Section MakeRequest.
Context (E : externals) (method endpoint : string) (data headers : value) (st : state).

Local Abbreviation outcome := (request_outcome E method endpoint data headers st).

(** The request returns a response with a non-error status whose body
    parses: the parsed body is returned and nothing is logged. *)
Lemma make_request_ok resp body :
  outcome = Ok resp -> is_error_status (status_code resp) = false ->
  json resp = Ok body ->
  make_request E method endpoint data headers st = (st, Ok body).
Proof.
  intros H Hs Hj. unfold make_request. run.
  fold (request_outcome E method endpoint data headers st). rewrite H, Hs, Hj. reflexivity.
Qed.

(** The request raises anything but an [HTTPError]. *)
Lemma make_request_request_raises e :
  outcome = Raise e -> exc_kind_of e <> HTTPError ->
  exists line, make_request E method endpoint data headers st = (logged st line, Ok VNone).
Proof.
  intros H Hk. unfold make_request, handle_request_error. run.
  fold (request_outcome E method endpoint data headers st). rewrite H.
  destruct (exc_kind_of e); try congruence; run; eexists; reflexivity.
Qed.

(** The status is an error and the error body is a JSON object. *)
Lemma make_request_http_error resp d :
  outcome = Ok resp -> is_error_status (status_code resp) = true ->
  json resp = Ok (VDict d) ->
  exists line, make_request E method endpoint data headers st = (logged st line, Ok VNone).
Proof.
  intros H Hs Hj. unfold make_request, handle_request_error. run.
  fold (request_outcome E method endpoint data headers st).
  rewrite H, Hs. cbn [exc_kind_of]. run. rewrite Hj. cbn [dict_get]. run.
  eexists. reflexivity.
Qed.

(** The status is fine but the body does not parse. *)
Lemma make_request_bad_body resp e :
  outcome = Ok resp -> is_error_status (status_code resp) = false ->
  json resp = Raise e -> exc_kind_of e <> HTTPError ->
  exists line, make_request E method endpoint data headers st = (logged st line, Ok VNone).
Proof.
  intros H Hs Hj Hk. unfold make_request, handle_request_error. run.
  fold (request_outcome E method endpoint data headers st).
  rewrite H, Hs, Hj. destruct (exc_kind_of e); try congruence; run; eexists; reflexivity.
Qed.

(** Anything other than [None] that [make_request] returns is the parsed
    body of a response with a non-error status. *)
Lemma make_request_returns_body v :
  (make_request E method endpoint data headers st).2 = Ok v -> v <> VNone ->
  exists resp, outcome = Ok resp /\ is_error_status (status_code resp) = false /\
               json resp = Ok v.
Proof.
  unfold make_request, handle_request_error. run.
  fold (request_outcome E method endpoint data headers st).
  destruct outcome as [resp|e].
  - destruct (is_error_status (status_code resp)) eqn:Hs.
    + cbn [exc_kind_of]. run. destruct (json resp) as [body|e]; run.
      * destruct (dict_get body "message" (VStr "未知错误")); run; cbn [snd]; congruence.
      * cbn [snd]. congruence.
    + destruct (json resp) as [body|e] eqn:Hj; run.
      * cbn [snd]. intros [= ->] _. eauto.
      * destruct (exc_kind_of e); run; cbn [snd]; congruence.
  - destruct (exc_kind_of e); run; cbn [snd]; congruence.
Qed.

End MakeRequest.

(** A login whose request gave a falsy result: the token is [None]. *)
Lemma authenticate_user_failed E st st1 result :
  make_request E "POST" "/passport/auth/login" (login_data st) VNone st = (st1, Ok result) ->
  truthy result = false ->
  authenticate_user E st
  = (State (base_url st1) VNone (email st1) (password st1)
           (logging st1 ++ [(ERROR, "登录失败")]), Ok tt).
Proof.
  intros H Ht. unfold authenticate_user. run. fold (login_data st). rewrite H. run.
  rewrite Ht. reflexivity.
Qed.

(** A login whose request gave a truthy result carrying
    [data.auth_data]: the token is that field, whether or not the log
    line that follows can be built. *)
Lemma authenticate_user_token E st st1 result d a :
  make_request E "POST" "/passport/auth/login" (login_data st) VNone st = (st1, Ok result) ->
  truthy result = true ->
  getitem result "data" = Ok d -> getitem d "auth_data" = Ok a ->
  token (authenticate_user E st).1 = a.
Proof.
  intros H Ht Hd Ha. unfold authenticate_user. run. fold (login_data st). rewrite H. run.
  rewrite Ht. run. rewrite Hd. run. rewrite Ha. run.
  destruct (getitem d "token"); reflexivity.
Qed.

(** C10, as the code has it.  [make_request] returns the parsed body
    when the request ends with a non-error status and a body that parses,
    and returns nothing else but [None]; it returns [None], after one
    error record, when the request raises, when the body of a good
    answer does not parse, and when the status is an error whose body is
    a JSON object.  After [authenticate_user] the token is [None] when
    [make_request] gave a falsy result, and is [data.auth_data] when it
    gave a truthy result that carries the field. *)
Theorem make_request_and_login E method endpoint data headers st :
  let outcome := request_outcome E method endpoint data headers st in
  (forall resp body,
     outcome = Ok resp -> is_error_status (status_code resp) = false ->
     json resp = Ok body ->
     make_request E method endpoint data headers st = (st, Ok body)) /\
  (forall v,
     (make_request E method endpoint data headers st).2 = Ok v -> v <> VNone ->
     exists resp, outcome = Ok resp /\ is_error_status (status_code resp) = false /\
                  json resp = Ok v) /\
  (forall e,
     outcome = Raise e -> exc_kind_of e <> HTTPError ->
     exists line, make_request E method endpoint data headers st = (logged st line, Ok VNone)) /\
  (forall resp e,
     outcome = Ok resp -> is_error_status (status_code resp) = false ->
     json resp = Raise e -> exc_kind_of e <> HTTPError ->
     exists line, make_request E method endpoint data headers st = (logged st line, Ok VNone)) /\
  (forall resp d,
     outcome = Ok resp -> is_error_status (status_code resp) = true ->
     json resp = Ok (VDict d) ->
     exists line, make_request E method endpoint data headers st = (logged st line, Ok VNone)) /\
  (forall st1 result,
     make_request E "POST" "/passport/auth/login" (login_data st) VNone st = (st1, Ok result) ->
     (truthy result = false ->
        (authenticate_user E st).2 = Ok tt /\ token (authenticate_user E st).1 = VNone) /\
     (forall d a, truthy result = true ->
        getitem result "data" = Ok d -> getitem d "auth_data" = Ok a ->
        token (authenticate_user E st).1 = a)).
Proof.
  intros outcome. split; [|split; [|split; [|split; [|split]]]].
  - apply make_request_ok.
  - apply make_request_returns_body.
  - apply make_request_request_raises.
  - apply make_request_bad_body.
  - apply make_request_http_error.
  - intros st1 result Hreq. split.
    + intros Hfalsy. rewrite (authenticate_user_failed _ _ _ _ Hreq Hfalsy).
      split; reflexivity.
    + intros d a. apply authenticate_user_token with (st1 := st1). exact Hreq.
Qed.

Lemma make_request_and_login_witness :
  let st := ApiSample.client in
  token (authenticate_user (ApiSample.answers ApiSample.logged_in) st).1 = VStr "a0" /\
  token (authenticate_user (ApiSample.fails (Exc Timeout "timed out")) st).1 = VNone /\
  (exists line,
     make_request (ApiSample.answers ApiSample.refused) "POST" "/passport/auth/login"
       (login_data st) VNone st = (logged st line, Ok VNone)).
Proof.
  intros st. split; [|split].
  - destruct (make_request_and_login (ApiSample.answers ApiSample.logged_in)
                "POST" "/passport/auth/login" (login_data st) VNone st)
      as (Hok & _ & _ & _ & _ & Hlogin).
    destruct (Hlogin st _ (Hok ApiSample.logged_in _ eq_refl eq_refl eq_refl)) as [_ Htok].
    apply (Htok (VDict [("token", VStr "t0"); ("auth_data", VStr "a0")]));
      reflexivity.
  - destruct (make_request_and_login (ApiSample.fails (Exc Timeout "timed out"))
                "POST" "/passport/auth/login" (login_data st) VNone st)
      as (_ & _ & Hraise & _ & _ & Hlogin).
    destruct (Hraise (Exc Timeout "timed out") eq_refl) as [line Hl]; [discriminate|].
    destruct (Hlogin _ _ Hl) as [Hnone _]. apply Hnone. reflexivity.
  - destruct (make_request_and_login (ApiSample.answers ApiSample.refused)
                "POST" "/passport/auth/login" (login_data st) VNone st)
      as (_ & _ & _ & _ & Herr & _).
    apply (Herr ApiSample.refused [("message", VStr "邮箱或密码错误")]); reflexivity.
Defined.

(** C10 as stated fails twice.  An error status whose body is not JSON
    makes the handler of [HTTPError] raise, and [make_request] with it.
    And a login answered with status 200 and the body [{}] succeeds,
    [make_request] returns that body, yet the token is [None]. *)
Lemma make_request_can_raise :
  (make_request (ApiSample.answers ApiSample.bad_gateway) "POST" "/passport/auth/login"
     ApiSample.login_data VNone ApiSample.client).2 = Raise ApiSample.not_json /\
  (make_request (ApiSample.answers ApiSample.empty_object) "POST" "/passport/auth/login"
     ApiSample.login_data VNone ApiSample.client).2 = Ok (VDict []) /\
  token (authenticate_user (ApiSample.answers ApiSample.empty_object) ApiSample.client).1
  = VNone.
Proof. vm_compute. auto. Qed.

End ApiClientFacts.

(** ** The wrappers around external calls, in both scripts *)

Module WrapperFacts.
Import Py.

(** [get_sub] leaves the cache as it is. *)
Lemma get_sub_cache E s opt st :
  GetTrial.cache (GetTrial.get_sub E s opt st).1 = GetTrial.cache st.
Proof.
  destruct (GetTrialFacts.get_sub_frame E s opt st) as (l & r & ->). reflexivity.
Qed.

Lemma records_marker_irrefl c : ~ GetTrial.records_marker c c.
Proof. intros (k & v & H1 & H2). contradiction. Qed.

(** The [except] clauses of [get_sub], reached when the HTTP fetch
    raises [e]: one line is appended to the log, the cache is not
    written, and an exception goes to the caller: [e] itself, or the
    failure of rebuilding the URL in the clause for other exceptions. *)
Lemma get_sub_fetch_raises E s opt st url name e :
  GetTrial.read_sub_url (GetTrial.cache st) = Ok url ->
  GetTrial.g0 E (GetTrial.cache st) "name" None = Ok (VStr name) ->
  (forall v, opt !! "speed_limit" = Some v -> exists t, v = VStr t) ->
  GetTrial.requests_get_json E url = Raise e ->
  exists line e',
    GetTrial.get_sub E s opt st
    = (GetTrial.State (GetTrial.cache st)
         (GetTrial.log st ++ ["开始获取订阅: " +:+ str url; line])
         (GetTrial.trace st ++ [GetTrial.CallGetSub]),
       Raise e') /\
    (e' = e \/
     GetTrial.rebuild_url E (GetTrial.origin s) url = Raise e' /\
     exc_kind_of e <> Timeout /\ exc_kind_of e <> ConnectionError).
Proof.
  intros Hu Hn Hs He. unfold GetTrial.get_sub. GetTrialFacts.run.
  rewrite GetTrialFacts.sub_url0_run. cbn [GetTrial.cache GetTrial.log GetTrial.trace].
  rewrite Hu, Hn. cbn [str_add].
  destruct (opt !! "speed_limit") as [v|] eqn:Hv.
  1: destruct (Hs v eq_refl) as [t ->]; cbn [str_add].
  all: cbn [GetTrial.cache GetTrial.log GetTrial.trace]; rewrite He;
    cbn [GetTrial.cache GetTrial.log GetTrial.trace].
  all: destruct (exc_kind_of e) eqn:Hk; cbn [GetTrial.cache GetTrial.log GetTrial.trace];
    try (eexists _, e; split; [rewrite <- app_assoc; reflexivity | left; reflexivity]).
  all: destruct (GetTrial.rebuild_url E (GetTrial.origin s) url) as [u|e''] eqn:Hrb;
    [ eexists _, e; split; [rewrite <- app_assoc; reflexivity | left; reflexivity]
    | eexists _, e''; split; [rewrite <- app_assoc; reflexivity
                             | right; split; [reflexivity | split; discriminate]] ].
Qed.

(** C7, as the code has it.  Every [except] clause of [get_sub] appends
    one line to the shared log, writes nothing to the cache (the marker
    is stored by the caller, [try_turn]) and raises to the caller: the
    exception it caught or, in the clause for other exceptions, the
    failure of rebuilding the URL.  Every [except] clause of
    [make_request] hands one error record to the [logging] module and
    returns [None]: when the request raises, when the body of a good
    answer does not parse, and when the status is an error whose body is
    a JSON object. *)
Theorem wrappers_log_and_give_up :
  (forall E s opt st url name e,
     GetTrial.read_sub_url (GetTrial.cache st) = Ok url ->
     GetTrial.g0 E (GetTrial.cache st) "name" None = Ok (VStr name) ->
     (forall v, opt !! "speed_limit" = Some v -> exists t, v = VStr t) ->
     GetTrial.requests_get_json E url = Raise e ->
     (exists line e',
        GetTrial.get_sub E s opt st
        = (GetTrial.State (GetTrial.cache st)
             (GetTrial.log st ++ ["开始获取订阅: " +:+ str url; line])
             (GetTrial.trace st ++ [GetTrial.CallGetSub]),
           Raise e') /\
        (e' = e \/
         GetTrial.rebuild_url E (GetTrial.origin s) url = Raise e' /\
         exc_kind_of e <> Timeout /\ exc_kind_of e <> ConnectionError)) /\
     ~ GetTrial.records_marker (GetTrial.cache st)
         (GetTrial.cache (GetTrial.get_sub E s opt st).1)) /\
  (forall E method endpoint data headers st,
     let outcome := ApiClient.request_outcome E method endpoint data headers st in
     let returns_none :=
       exists line,
         ApiClient.make_request E method endpoint data headers st
         = (ApiClient.logged st line, Ok VNone) in
     (forall e, outcome = Raise e -> exc_kind_of e <> HTTPError -> returns_none) /\
     (forall resp e,
        outcome = Ok resp -> ApiClient.is_error_status (ApiClient.status_code resp) = false ->
        ApiClient.json resp = Raise e -> exc_kind_of e <> HTTPError -> returns_none) /\
     (forall resp d,
        outcome = Ok resp -> ApiClient.is_error_status (ApiClient.status_code resp) = true ->
        ApiClient.json resp = Ok (VDict d) -> returns_none)).
Proof.
  split.
  - intros E s opt st url name e Hu Hn Hs He. split.
    + exact (get_sub_fetch_raises E s opt st url name e Hu Hn Hs He).
    + rewrite get_sub_cache. apply records_marker_irrefl.
  - intros E method endpoint data headers st outcome returns_none. split; [|split].
    + apply ApiClientFacts.make_request_request_raises.
    + apply ApiClientFacts.make_request_bad_body.
    + apply ApiClientFacts.make_request_http_error.
Qed.

Lemma wrappers_log_and_give_up_witness :
  let st := GetTrial.State (Sample.renewed ∅) [] [] in
  GetTrial.get_sub Sample.renew_then_timeout Sample.example_session ∅ st
  = (GetTrial.State (Sample.renewed ∅)
       ["开始获取订阅: https://example.com/new"; "获取订阅超时: https://example.com/new"]
       [GetTrial.CallGetSub],
     Raise Sample.timed_out) /\
  ApiClient.make_request (ApiSample.fails Sample.timed_out) "GET" "/user/getSubscribe"
    VNone VNone ApiSample.client
  = (ApiClient.logged ApiSample.client "请求超时，请检查网络连接。", Ok VNone).
Proof.
  intros st. destruct wrappers_log_and_give_up as [Hget Hreq]. split.
  - destruct (Hget Sample.renew_then_timeout Sample.example_session ∅ st
                (VStr "https://example.com/new") "example" Sample.timed_out)
      as [(line & e' & Heq & _) _];
      [reflexivity | reflexivity | intros v Hv; discriminate Hv | reflexivity |].
    rewrite Heq. vm_compute in Heq. injection Heq as <- <-. reflexivity.
  - destruct (Hreq (ApiSample.fails Sample.timed_out) "GET" "/user/getSubscribe"
                VNone VNone ApiSample.client) as (Hraise & _ & _).
    destruct (Hraise Sample.timed_out eq_refl) as [line Hl]; [discriminate|].
    rewrite Hl. vm_compute in Hl. injection Hl as <-. reflexivity.
Defined.

(** C7 as stated fails on its part (b): when the fetch times out,
    [get_sub] logs and re-raises, and no key of the cache is written. *)
Lemma get_sub_timeout_records_no_marker :
  let st := GetTrial.State (Sample.renewed ∅) [] [] in
  let r := GetTrial.get_sub Sample.renew_then_timeout Sample.example_session ∅ st in
  r.2 = Raise Sample.timed_out /\
  ~ GetTrial.records_marker (GetTrial.cache st) (GetTrial.cache r.1).
Proof.
  intros st r. split; [vm_compute; reflexivity|].
  subst r. rewrite get_sub_cache. apply records_marker_irrefl.
Qed.

End WrapperFacts.

(** ** Further facts about [get_trial.py] *)

Module GetTrialMore.
Import Py GetTrial GetTrialDriver GetTrialFacts.

(** *** [get_sub] *)

(** What a call of [get_sub] that returns has done. *)
Lemma get_sub_ok_inv E s opt st st' sub :
  get_sub E s opt st = (st', Ok sub) ->
  exists url info,
    read_sub_url (cache st) = Ok url /\
    requests_get_json E url = Ok info /\
    sub = [info] /\
    st' = State (cache st)
            (log st ++ ["开始获取订阅: " +:+ str url; "成功获取订阅: " +:+ str url])
            (trace st ++ [CallGetSub]).
Proof.
  unfold get_sub. run. rewrite sub_url0_run. cbn [cache log trace].
  destruct (read_sub_url (cache st)) as [url|e0]; [|discriminate].
  cbn [cache log trace].
  destruct (g0 E (cache st) "name" None) as [name|e0]; [|discriminate].
  destruct (str_add " - " name) as [suffix|e0]; [|discriminate].
  destruct (opt !! "speed_limit") as [v|].
  1: destruct (str_add " ⚠️限速 " v) as [t|e0]; [|discriminate].
  all: cbn [cache log trace];
    destruct (requests_get_json E url) as [info|e0] eqn:Hf; cbn [cache log trace].
  all: try (intros [= <- <-]; exists url, info; rewrite <- app_assoc; auto).
  all: destruct (exc_kind_of e0); cbn [cache log trace]; try discriminate;
    destruct (rebuild_url E (origin s) url); discriminate.
Qed.

(** X1. A call of [get_sub] that returns has read the URL from the
    cache, fetched [info] from it and returns the one-element list
    [[info]]; the cache is as before and the log has the start line and
    the success line. *)
Theorem get_sub_returns E s opt st st' sub :
  get_sub E s opt st = (st', Ok sub) ->
  exists url info,
    read_sub_url (cache st) = Ok url /\
    requests_get_json E url = Ok info /\
    sub = [info] /\
    st' = State (cache st)
            (log st ++ ["开始获取订阅: " +:+ str url; "成功获取订阅: " +:+ str url])
            (trace st ++ [CallGetSub]).
Proof. apply get_sub_ok_inv. Qed.

Lemma get_sub_returns_witness :
  let st := State (Sample.renewed ∅) [] [] in
  let info := VDict [("total", VStr "1")] in
  get_sub (Sample.renew_ok 1 info) Sample.example_session ∅ st
  = (State (Sample.renewed ∅)
       ["开始获取订阅: https://example.com/new"; "成功获取订阅: https://example.com/new"]
       [CallGetSub],
     Ok [info]).
Proof.
  intros st info.
  eassert (H : get_sub (Sample.renew_ok 1 info) Sample.example_session ∅ st
               = (_, Ok [info])) by (vm_compute; reflexivity).
  rewrite H.
  destruct (get_sub_returns _ _ _ _ _ _ H) as (url & info' & Hu & _ & _ & ->).
  vm_compute in Hu. injection Hu as <-. reflexivity.
Defined.

(** X2. Without a readable [cache["sub_url"][0]], [get_sub] raises on
    its first line, before anything is logged or fetched: [KeyError]
    when the key is missing, [IndexError] when the list is empty. *)
Theorem get_sub_without_url E s opt st :
  (cache st !! "sub_url" = None ->
   get_sub E s opt st
   = (State (cache st) (log st) (trace st ++ [CallGetSub]),
      Raise (Exc KeyError "'sub_url'"))) /\
  (cache st !! "sub_url" = Some (VList []) ->
   get_sub E s opt st
   = (State (cache st) (log st) (trace st ++ [CallGetSub]),
      Raise (Exc IndexError "list index out of range"))).
Proof.
  split; intros H; apply get_sub_unreadable;
    unfold read_sub_url, lookup_key; rewrite H; reflexivity.
Qed.

Lemma get_sub_without_url_witness :
  (get_sub Sample.decide_fails Sample.example_session ∅ Sample.empty_state).2
  = Raise (Exc KeyError "'sub_url'") /\
  (get_sub Sample.decide_fails Sample.example_session ∅
     (State {[ "sub_url" := VList [] ]} [] [])).2
  = Raise (Exc IndexError "list index out of range").
Proof.
  split.
  - destruct (get_sub_without_url Sample.decide_fails Sample.example_session ∅
                Sample.empty_state) as [-> _]; reflexivity.
  - destruct (get_sub_without_url Sample.decide_fails Sample.example_session ∅
                (State {[ "sub_url" := VList [] ]} [] [])) as [_ ->]; reflexivity.
Defined.

(** *** [cache_sub_info] *)



(** *** [save_sub] *)



(** When the module-level name [log] is unbound,
    [save_sub_base64_and_clash] raises on its first line. *)
Lemma save_sub_base64_and_clash_unbound E base64 clash h opt st :
  log_is_global E = false ->
  save_sub_base64_and_clash E base64 clash h opt st
  = (st, Raise (Exc NameError "name 'log' is not defined")).
Proof.
  intros H. unfold save_sub_base64_and_clash, global_log_append. rewrite H. reflexivity.
Qed.

(** The step around [cache_sub_info] touches ['sub_info'] at most. *)
Lemma info_step_frame E info opt st stb r1 k :
  cache_sub_info E info opt st = (stb, r1) -> k <> "sub_info" ->
  cache stb !! k = cache st !! k.
Proof.
  intros H Hk. destruct r1 as [[]|e].
  - destruct (cache_sub_info_returns_frame _ _ _ _ _ H) as (u & t & x & r & ->).
    rewrite lookup_insert_ne by done. reflexivity.
  - rewrite (cache_sub_info_raises_frame _ _ _ _ _ _ H). reflexivity.
Qed.

(** X5. When the file is imported rather than run as a script, the name
    [log] used by [save_sub_base64_and_clash] is unbound: every call of
    [save_sub] ends with the marker ['保存base64/clash订阅失败'] holding
    the [NameError] text, and ['node_n'] is never written. *)
Theorem save_sub_imported E info base64 clash base64_url clash_url h opt st :
  log_is_global E = false ->
  let final := cache (save_sub E info base64 clash base64_url clash_url h opt st).1 in
  final !! key_save_failed = Some (VList [VStr "name 'log' is not defined"]) /\
  final !! "node_n" = cache st !! "node_n".
Proof.
  intros Hg final. subst final. unfold save_sub. run. fold (save_entry st).
  destruct (cache_sub_info E info opt (save_entry st)) as [stb r1] eqn:H1.
  pose proof (info_step_frame _ _ _ _ _ _ "node_n" H1 ltac:(done)) as Hnode.
  unfold save_entry in Hnode. cbn [cache] in Hnode.
  rewrite !lookup_delete_ne in Hnode by done.
  destruct r1 as [[]|e1]; run; rewrite save_sub_base64_and_clash_unbound by exact Hg;
    run; cbn [fst cache exc_msg]; split; try apply lookup_insert_eq;
    rewrite !lookup_insert_ne by done; exact Hnode.
Qed.

Lemma save_sub_imported_witness :
  let E := Sample.generator (Ok (VInt 5)) false in
  let final :=
    cache (save_sub E (VDict [("total", VStr "1")]) VNone VNone (VStr "b") (VStr "c")
             "example.com" ∅ Sample.driver_state).1 in
  log_is_global E = false /\
  final !! key_save_failed = Some (VList [VStr "name 'log' is not defined"]) /\
  final !! "node_n" = None.
Proof.
  intros E final. split; [reflexivity|].
  destruct (save_sub_imported E (VDict [("total", VStr "1")]) VNone VNone (VStr "b")
              (VStr "c") "example.com" ∅ Sample.driver_state eq_refl) as [H1 H2].
  split; [exact H1|]. fold final in H2. rewrite H2. reflexivity.
Defined.



(** *** [new_panel_session] *)

(** X7. With a ['type'] already in the cache, [new_panel_session] does
    not ask [guess_panel]: cache and log stay as they are and the
    session is built from the cache.  Without one, a [guess_panel] that
    raises passes its exception on, with cache and log untouched. *)
Theorem new_panel_session_no_guess E h st :
  (forall t, cache st !! "type" = Some t ->
     new_panel_session E h st
     = (State (cache st) (log st) (trace st ++ [CallPanelClass (cache st)]),
        match panel_class E (cache st) h with
        | Ok s => Ok (Some s)
        | Raise e => Raise e
        end)) /\
  (forall e, cache st !! "type" = None -> guess_panel E h = Raise e ->
     new_panel_session E h st = (st, Raise e)).
Proof.
  split.
  - intros t Ht. unfold new_panel_session, construct_session. run. rewrite Ht. run.
    destruct (panel_class E (cache st) h); reflexivity.
  - intros e Ht Hg. unfold new_panel_session. run. rewrite Ht. run. rewrite Hg.
    reflexivity.
Qed.

Lemma new_panel_session_no_guess_witness :
  let c : dict := <["type" := VList [VStr "sspanel"]]> Sample.driver_cache in
  new_panel_session (Sample.with_guess Sample.decide_fails (Raise Sample.boom))
    "example.com" (State c [] [])
  = (State c [] [CallPanelClass c], Ok (Some (Session "example.com" "https://example.com"))) /\
  new_panel_session (Sample.with_guess Sample.decide_fails (Raise Sample.boom))
    "example.com" Sample.driver_state
  = (Sample.driver_state, Raise Sample.boom).
Proof.
  intros c. split.
  - destruct (new_panel_session_no_guess
                (Sample.with_guess Sample.decide_fails (Raise Sample.boom))
                "example.com" (State c [] [])) as [H _].
    rewrite (H (VList [VStr "sspanel"])); reflexivity.
  - destruct (new_panel_session_no_guess
                (Sample.with_guess Sample.decide_fails (Raise Sample.boom))
                "example.com" Sample.driver_state) as [_ H].
    apply H; reflexivity.
Defined.

(** *** [try_turn] *)

(** The cache [try_turn] leaves is the cache left by the last callee
    that was handed it, with at most one marker added. *)
Lemma try_turn_cache_cases E s opt st :
  let c1 := (should_turn E s opt (pop_markers (cache st))).1 in
  let final := cache (try_turn E s opt st).1 in
  exists c, (c = c1 \/ exists b, c = (do_turn E s opt c1 (entry_log s st) b).1.1) /\
            (final = c \/ exists k e, k ∈ turn_markers /\ final = <[k := marker e]> c).
Proof.
  intros c1 final. subst c1 final.
  destruct (should_turn E s opt (pop_markers (cache st))) as [c1 [[|turn sub]|e]] eqn:H;
    cbn [fst].
  - exists c1. split; [left; reflexivity|]. right.
    exists key_old_failed. eexists (Exc ValueError _). split; [set_solver|].
    unfold try_turn, call_should_turn. run. fold (pop_markers (cache st)). rewrite H. run.
    rewrite sub_url0_run. cbn [cache log trace].
    destruct (read_sub_url _); reflexivity.
  - destruct (truthy turn) eqn:Ht.
    2:{ exists c1. split; [left; reflexivity|]. left.
        rewrite (try_turn_no_turn _ _ _ _ _ _ _ H Ht). reflexivity. }
    destruct (do_turn E s opt c1 (entry_log s st) (eq_int turn 2))
      as [[c2 l2] [[]|e]] eqn:Hd.
    2:{ exists c2. split; [right; exists (eq_int turn 2); rewrite Hd; reflexivity|].
        right. exists key_turn_failed, e. split; [set_solver|].
        rewrite (try_turn_renew_raises _ _ _ _ _ _ _ _ _ _ H Ht Hd). reflexivity. }
    exists c2. split; [right; exists (eq_int turn 2); rewrite Hd; reflexivity|].
    destruct (get_sub E s opt (fetch_state s st (eq_int turn 2) c2 l2))
      as [st3 r] eqn:Hg.
    destruct (get_sub_frame E s opt (fetch_state s st (eq_int turn 2) c2 l2))
      as (l & r' & Hf).
    rewrite Hg in Hf. injection Hf as -> ->. cbn [cache fetch_state] in Hg.
    destruct r' as [sub'|e].
    + left. rewrite (try_turn_fetch_ok _ _ _ _ _ _ _ _ _ _ _ H Ht Hd Hg). reflexivity.
    + right. exists key_get_failed, e. split; [set_solver|].
      rewrite (try_turn_fetch_raises _ _ _ _ _ _ _ _ _ _ _ H Ht Hd Hg). cbv zeta.
      destruct (read_sub_url _); reflexivity.
  - exists c1. split; [left; reflexivity|]. right.
    exists key_old_failed, e. split; [set_solver|].
    rewrite (try_turn_decide_raises _ _ _ _ _ _ H). cbv zeta.
    destruct (read_sub_url _); reflexivity.
Qed.

(** X8. If [should_turn] and [do_turn] leave the three markers out of
    the cache, then after [try_turn] at most one of the three is
    present: the markers of earlier runs are gone and one run records
    one failure at most. *)
Theorem try_turn_at_most_one_marker E s opt st :
  let c1 := (should_turn E s opt (pop_markers (cache st))).1 in
  let final := cache (try_turn E s opt st).1 in
  (forall k, k ∈ turn_markers -> c1 !! k = None) ->
  (forall b k, k ∈ turn_markers ->
     (do_turn E s opt c1 (entry_log s st) b).1.1 !! k = None) ->
  forall k k', k ∈ turn_markers -> k' ∈ turn_markers ->
    is_Some (final !! k) -> is_Some (final !! k') -> k = k'.
Proof.
  intros c1 final H1 H2 k k' Hk Hk' [v Hv] [v' Hv'].
  destruct (try_turn_cache_cases E s opt st) as (c & Hc & Hfin).
  fold c1 in Hc. fold final in Hfin.
  assert (Hnone : forall j, j ∈ turn_markers -> c !! j = None).
  { intros j Hj. destruct Hc as [->|[b ->]]; [apply H1|apply H2]; exact Hj. }
  destruct Hfin as [Hfin|(k0 & e & _ & Hfin)]; rewrite Hfin in Hv, Hv'.
  - rewrite Hnone in Hv by exact Hk. discriminate Hv.
  - destruct (decide (k0 = k)) as [<-|Hne].
    + destruct (decide (k0 = k')) as [<-|Hne']; [reflexivity|].
      rewrite lookup_insert_ne, Hnone in Hv' by done. discriminate Hv'.
    + rewrite lookup_insert_ne, Hnone in Hv by done. discriminate Hv.
Qed.

Lemma try_turn_at_most_one_marker_witness :
  let st :=
    State (<[key_get_failed := VList [VStr "stale"]]> Sample.driver_cache) [] [] in
  let final := cache (try_turn Sample.renew_fails Sample.example_session ∅ st).1 in
  is_Some (final !! key_turn_failed) /\ final !! key_get_failed = None.
Proof.
  intros st final.
  assert (Ht : is_Some (final !! key_turn_failed)) by (eexists; vm_compute; reflexivity).
  split; [exact Ht|].
  destruct (final !! key_get_failed) as [v|] eqn:Hg; [|reflexivity]. exfalso.
  assert (Hneq : key_get_failed <> key_turn_failed) by discriminate.
  apply Hneq.
  apply (try_turn_at_most_one_marker Sample.renew_fails Sample.example_session ∅ st).
  - intros k Hk. change (pop_markers (cache st) !! k = None).
    rewrite lookup_pop_markers. rewrite bool_decide_eq_true_2 by exact Hk. reflexivity.
  - intros b k Hk. change (pop_markers (cache st) !! k = None).
    rewrite lookup_pop_markers. rewrite bool_decide_eq_true_2 by exact Hk. reflexivity.
  - set_solver.
  - set_solver.
  - fold final. rewrite Hg. eauto.
  - exact Ht.
Defined.

(** *** [get_and_save] *)

Section GetAndSave.
Context (E : externals).
Context (try_checkin : session -> dict -> dict -> list string ->
                       dict * list string * result unit).
Context (s : session) (h : string) (opt : dict) (st : state).

Local Abbreviation checkin :=
  (try_checkin s opt (cache st) (log st ++ ["开始处理订阅: " +:+ h])).

(** [get_and_save] up to the call of [try_turn], after a [try_checkin]
    that returned. *)
Lemma get_and_save_run ca la :
  checkin = (ca, la, Ok tt) ->
  get_and_save E try_checkin s h opt st
  = match try_turn E s opt (checked_in st ca la) with
    | (st2, Ok (Some (x :: l))) =>
        match save_sub_star E (x :: l) h opt st2 with
        | (st3, Ok _) =>
            (State (cache st3) (log st3 ++ ["完成处理订阅: " +:+ h]) (trace st3), Ok tt)
        | (st3, Raise e) => (st3, Raise e)
        end
    | (st2, Ok _) =>
        (State (cache st2) (log st2 ++ ["完成处理订阅: " +:+ h]) (trace st2), Ok tt)
    | (st2, Raise e) => (st2, Raise e)
    end.
Proof.
  intros H. unfold get_and_save, call_try_checkin. run. rewrite H. run.
  fold (checked_in st ca la).
  destruct (try_turn E s opt (checked_in st ca la)) as [st2 [[[|x l]|]|e]]; run;
    reflexivity.
Qed.

(** [get_and_save] after a [try_checkin] that raised. *)
Lemma get_and_save_stop ca la e :
  checkin = (ca, la, Raise e) ->
  get_and_save E try_checkin s h opt st = (State ca la (trace st), Raise e).
Proof.
  intros H. unfold get_and_save, call_try_checkin. run. rewrite H. reflexivity.
Qed.

(** X9. The check-in step is not isolated like the others: when
    [try_checkin] raises, [get_and_save] passes the exception on and
    stops there, leaving the cache and the log as [try_checkin] did:
    [should_turn] is never called and no marker is written. *)
Theorem get_and_save_checkin_raises ca la e :
  checkin = (ca, la, Raise e) ->
  get_and_save E try_checkin s h opt st = (State ca la (trace st), Raise e).
Proof. apply get_and_save_stop. Qed.

(** X10. [get_sub] returns a one-element list while [save_sub] takes
    five values before [host]: whenever a renewal and the fetch that
    follows it succeed, [get_and_save] raises the [TypeError] of a call
    with four arguments missing, [save_sub] does not run and the closing
    log line is not written. *)
Theorem get_and_save_after_renewal ca la c1 turn sub c2 l2 st3 sub' :
  checkin = (ca, la, Ok tt) ->
  should_turn E s opt (pop_markers ca) = (c1, Ok (turn :: sub)) ->
  truthy turn = true ->
  do_turn E s opt c1 (entry_log s (checked_in st ca la)) (eq_int turn 2) = (c2, l2, Ok tt) ->
  get_sub E s opt (fetch_state s (checked_in st ca la) (eq_int turn 2) c2 l2)
  = (st3, Ok sub') ->
  get_and_save E try_checkin s h opt st
  = (State (cache st3) (log st3 ++ ["获取新订阅成功: " +:+ host s]) (trace st3),
     Raise (Exc TypeError
              "save_sub() missing 4 required positional arguments: 'host', 'opt', 'cache', and 'log'")).
Proof.
  intros Hc Hs Ht Hd Hg. rewrite (get_and_save_run _ _ Hc).
  rewrite (try_turn_fetch_ok E s opt (checked_in st ca la) _ _ _ _ _ _ _ Hs Ht Hd Hg).
  destruct (get_sub_ok_inv _ _ _ _ _ _ Hg) as (url & info & _ & _ & -> & _).
  reflexivity.
Qed.

(** X11. [get_and_save] raises in three ways only: [try_checkin]
    raised; [try_turn] raised; or [try_turn] returned a non-empty [sub]
    that does not have five elements, which makes the call of [save_sub]
    a [TypeError].  [save_sub] itself never makes it raise. *)
Theorem get_and_save_raises e :
  (get_and_save E try_checkin s h opt st).2 = Raise e ->
  checkin.2 = Raise e \/
  exists ca la, checkin = (ca, la, Ok tt) /\
    ((try_turn E s opt (checked_in st ca la)).2 = Raise e \/
     exists sub, (try_turn E s opt (checked_in st ca la)).2 = Ok (Some sub) /\
                 sub <> [] /\ length sub <> 5%nat /\
                 e = arity_error (length sub + 4)).
Proof.
  destruct checkin as [[ca la] [[]|e0]] eqn:Hc.
  2:{ rewrite (get_and_save_stop _ _ _ Hc). cbn [snd]. intros [= ->].
      left. reflexivity. }
  rewrite (get_and_save_run _ _ Hc). intros H. right. exists ca, la.
  split; [reflexivity|].
  destruct (try_turn E s opt (checked_in st ca la)) as [st2 [[[|x l]|]|e2]];
    cbn [snd] in *; try discriminate H.
  2:{ left. injection H as ->. reflexivity. }
  right. exists (x :: l). split; [reflexivity|]. split; [discriminate|].
  destruct l as [|x2 [|x3 [|x4 [|x5 [|x6 l]]]]]; cbn [save_sub_star] in H;
    try (cbn in H; injection H as <-; split; [discriminate|reflexivity]).
  pose proof (save_sub_returns E x x2 x3 x4 x5 h opt st2) as Hr.
  destruct (save_sub E x x2 x3 x4 x5 h opt st2) as [st3 [[]|e3]];
    cbn [snd] in *; discriminate.
Qed.

(** X12. When [try_checkin] returns and [try_turn] returns [None], an
    empty [sub] or a [sub] of five elements, [get_and_save] returns and
    the closing line is the last of the log; in the first two cases
    [save_sub] does not run, so the cache is as [try_turn] left it. *)
Theorem get_and_save_completes ca la st2 sub :
  checkin = (ca, la, Ok tt) ->
  try_turn E s opt (checked_in st ca la) = (st2, Ok sub) ->
  (sub = None \/ sub = Some [] \/ exists l, sub = Some l /\ length l = 5%nat) ->
  let r := get_and_save E try_checkin s h opt st in
  r.2 = Ok tt /\
  (exists l, log r.1 = l ++ ["完成处理订阅: " +:+ h]) /\
  (sub = None \/ sub = Some [] -> cache r.1 = cache st2 /\ trace r.1 = trace st2).
Proof.
  intros Hc Ht Hsub r. subst r. rewrite (get_and_save_run _ _ Hc), Ht.
  destruct Hsub as [->|[->|(l & -> & Hl)]].
  - cbn [fst snd cache log trace]. eauto.
  - cbn [fst snd cache log trace]. eauto.
  - destruct l as [|x [|x2 [|x3 [|x4 [|x5 [|x6 l]]]]]]; try discriminate Hl.
    cbn [save_sub_star].
    pose proof (save_sub_returns E x x2 x3 x4 x5 h opt st2) as Hr.
    destruct (save_sub E x x2 x3 x4 x5 h opt st2) as [st3 [[]|e3]];
      cbn [snd] in Hr; [|discriminate Hr].
    cbn [fst snd cache log trace]. split; [reflexivity|]. split; [eauto|].
    intros [H|H]; discriminate H.
Qed.

End GetAndSave.

Lemma get_and_save_checkin_raises_witness :
  let checkin := fun (_ : session) (_ c : dict) (l : list string) =>
                   (c, l, @Raise unit Sample.boom) in
  get_and_save Sample.decide_fails checkin Sample.example_session "example.com" ∅
    Sample.driver_state
  = (State Sample.driver_cache ["开始处理订阅: example.com"] [], Raise Sample.boom).
Proof.
  intros checkin.
  apply (get_and_save_checkin_raises Sample.decide_fails checkin Sample.example_session
           "example.com" ∅ Sample.driver_state).
  reflexivity.
Defined.

Lemma get_and_save_after_renewal_witness :
  let checkin := fun (_ : session) (_ c : dict) (l : list string) => (c, l, Ok tt) in
  let E := Sample.renew_ok 1 (VDict [("total", VStr "1")]) in
  (get_and_save E checkin Sample.example_session "example.com" ∅ Sample.driver_state).2
  = Raise (Exc TypeError
             "save_sub() missing 4 required positional arguments: 'host', 'opt', 'cache', and 'log'").
Proof.
  intros checkin E.
  erewrite (get_and_save_after_renewal E checkin Sample.example_session "example.com" ∅
              Sample.driver_state);
    [reflexivity | reflexivity | vm_compute; reflexivity | reflexivity
    | vm_compute; reflexivity | vm_compute; reflexivity].
Defined.

Lemma get_and_save_raises_witness :
  let checkin := fun (_ : session) (_ c : dict) (l : list string) => (c, l, Ok tt) in
  let E := Sample.generator (Ok (VInt 5)) true in
  let st := checked_in Sample.driver_state Sample.driver_cache ["开始处理订阅: example.com"] in
  (try_turn E Sample.example_session ∅ st).2 = Ok (Some [VStr "old"]) /\
  (get_and_save E checkin Sample.example_session "example.com" ∅ Sample.driver_state).2
  = Raise (arity_error 5).
Proof.
  intros checkin E st. split; [vm_compute; reflexivity|].
  assert (H : (get_and_save E checkin Sample.example_session "example.com" ∅
                 Sample.driver_state).2 = Raise (arity_error 5))
    by (vm_compute; reflexivity).
  destruct (get_and_save_raises E checkin Sample.example_session "example.com" ∅
              Sample.driver_state _ H) as [Hc|(ca & la & Hc & Ht)].
  - discriminate Hc.
  - exact H.
Defined.

Lemma get_and_save_completes_witness :
  let checkin := fun (_ : session) (_ c : dict) (l : list string) => (c, l, Ok tt) in
  let r := get_and_save Sample.decide_fails checkin Sample.example_session "example.com" ∅
             Sample.driver_state in
  r.2 = Ok tt /\
  cache r.1 = <[key_old_failed := VList [VStr "boom"]]> Sample.driver_cache.
Proof.
  intros checkin r.
  eassert (Ht : try_turn Sample.decide_fails Sample.example_session ∅
                  (checked_in Sample.driver_state Sample.driver_cache
                     ["开始处理订阅: example.com"]) = (_, Ok None))
    by (vm_compute; reflexivity).
  destruct (get_and_save_completes Sample.decide_fails checkin Sample.example_session
              "example.com" ∅ Sample.driver_state _ _ _ None eq_refl Ht
              (or_introl eq_refl)) as (Hr & _ & Hcache).
  split; [exact Hr|]. destruct (Hcache (or_introl eq_refl)) as [Hc _].
  fold r in Hc. rewrite Hc. vm_compute. reflexivity.
Defined.

End GetTrialMore.

(** ** Further facts about [01.py] *)

Module ApiClientMore.
Import Py ApiClient ApiScript ApiClientFacts.

(** *** [make_request] *)

Section MakeRequest.
Context (E : externals) (method endpoint : string) (data headers : value) (st : state).

Local Abbreviation outcome := (request_outcome E method endpoint data headers st).
Local Abbreviation call := (make_request E method endpoint data headers st).

(** The state [make_request] leaves. *)
Lemma make_request_state :
  call.1 = st \/ exists line, call.1 = logged st line.
Proof.
  unfold make_request, handle_request_error. run.
  fold (request_outcome E method endpoint data headers st).
  assert (Heta : State (base_url st) (token st) (email st) (password st) (logging st) = st)
    by (destruct st; reflexivity).
  destruct outcome as [resp|e].
  - destruct (is_error_status (status_code resp)).
    + cbn [exc_kind_of]. run. destruct (json resp) as [body|e]; run; [|left; reflexivity].
      destruct (dict_get body "message" (VStr "未知错误")); run; cbn [fst];
        [right; eexists; reflexivity | left; reflexivity].
    + destruct (json resp) as [body|e]; run; [left; reflexivity|].
      destruct (exc_kind_of e); run; cbn [fst];
        try (right; eexists; reflexivity); left; reflexivity.
  - destruct (exc_kind_of e); run; cbn [fst];
      try (right; eexists; reflexivity); left; reflexivity.
Qed.

(** X13. [make_request] never touches the token, the credentials or the
    base URL, and hands at most one record, an error, to [logging]. *)
Theorem make_request_frame :
  call.1 = st \/ exists line, call.1 = logged st line.
Proof. exact make_request_state. Qed.

(** What a call of [make_request] that raises has met. *)
Lemma make_request_raise_inv e :
  call.2 = Raise e -> handler_failed outcome e /\ call.1 = st.
Proof.
  unfold handler_failed, make_request, handle_request_error. run.
  fold (request_outcome E method endpoint data headers st).
  destruct outcome as [resp|e0].
  - destruct (is_error_status (status_code resp)) eqn:Hs.
    + cbn [exc_kind_of]. run. destruct (json resp) as [body|e1] eqn:Hj; run.
      * destruct (dict_get body "message" (VStr "未知错误")) eqn:Hd; run; cbn [fst snd];
          [discriminate|]. intros [= ->]. split; [|reflexivity].
        left. exists resp. eauto 8.
      * cbn [fst snd]. intros [= ->]. split; [|reflexivity]. left. exists resp. eauto.
    + destruct (json resp) as [body|e1] eqn:Hj; run; [discriminate|].
      destruct (exc_kind_of e1) eqn:Hk; run; cbn [fst snd]; try discriminate.
      intros [= <-]. split; [|reflexivity]. right. split; [reflexivity|].
      right. exists resp, e1. auto.
  - destruct (exc_kind_of e0) eqn:Hk; run; cbn [fst snd]; try discriminate.
    intros [= <-]. split; [|reflexivity]. right. split; [reflexivity|]. left. eauto.
Qed.

(** X14. [make_request] raises only out of its handler of [HTTPError],
    when the error body cannot be read as a JSON object (or there is no
    response to read); the client is then left as it was, nothing being
    logged. *)
Theorem make_request_raises e :
  call.2 = Raise e -> handler_failed outcome e /\ call.1 = st.
Proof. apply make_request_raise_inv. Qed.

End MakeRequest.

Lemma make_request_raises_witness :
  let E := ApiSample.answers ApiSample.bad_gateway in
  (make_request E "GET" "/user/getSubscribe" VNone VNone ApiSample.client).2
  = Raise ApiSample.not_json /\
  (make_request E "GET" "/user/getSubscribe" VNone VNone ApiSample.client).1
  = ApiSample.client.
Proof.
  intros E.
  assert (H : (make_request E "GET" "/user/getSubscribe" VNone VNone ApiSample.client).2
              = Raise ApiSample.not_json) by reflexivity.
  split; [exact H|].
  apply (make_request_raises E "GET" "/user/getSubscribe" VNone VNone ApiSample.client
           ApiSample.not_json H).
Defined.

(** *** [authenticate_user] and [register_user] *)

(** X15. When the login request gives a truthy result that lacks
    [data] or [data.auth_data], [authenticate_user] raises the lookup
    error and leaves the token as it was.  When only [data.token], read
    for the log line, is missing, it raises as well, after the token was
    set to [data.auth_data]. *)
Theorem authenticate_user_raises E st st1 result :
  make_request E "POST" "/passport/auth/login" (login_data st) VNone st = (st1, Ok result) ->
  truthy result = true ->
  (forall e, getitem result "data" = Raise e ->
     authenticate_user E st = (st1, Raise e)) /\
  (forall d e, getitem result "data" = Ok d -> getitem d "auth_data" = Raise e ->
     authenticate_user E st = (st1, Raise e)) /\
  (forall d a e, getitem result "data" = Ok d -> getitem d "auth_data" = Ok a ->
     getitem d "token" = Raise e ->
     authenticate_user E st = (with_token st1 a, Raise e)) /\
  token st1 = token st.
Proof.
  intros H Ht. repeat apply conj.
  - intros e Hd. unfold authenticate_user. run. fold (login_data st). rewrite H. run.
    rewrite Ht. run. rewrite Hd. reflexivity.
  - intros d e Hd Ha. unfold authenticate_user. run. fold (login_data st). rewrite H. run.
    rewrite Ht. run. rewrite Hd. run. rewrite Ha. reflexivity.
  - intros d a e Hd Ha Hk. unfold authenticate_user. run. fold (login_data st).
    rewrite H. run. rewrite Ht. run. rewrite Hd. run. rewrite Ha. run. rewrite Hk.
    reflexivity.
  - destruct (make_request_state E "POST" "/passport/auth/login" (login_data st) VNone st)
      as [Hf|[line Hf]]; rewrite H in Hf; cbn [fst] in Hf; rewrite Hf; reflexivity.
Qed.

Lemma authenticate_user_raises_witness :
  let no_token := Response 200 (Ok (VDict [("data", VDict [("auth_data", VStr "a0")])])) in
  let no_data := Response 200 (Ok (VDict [("status", VStr "success")])) in
  authenticate_user (ApiSample.answers no_data) ApiSample.client
  = (ApiSample.client, Raise (Exc KeyError "'data'")) /\
  authenticate_user (ApiSample.answers no_token) ApiSample.client
  = (with_token ApiSample.client (VStr "a0"), Raise (Exc KeyError "'token'")).
Proof.
  intros no_token no_data. split.
  - destruct (authenticate_user_raises (ApiSample.answers no_data) ApiSample.client
                ApiSample.client (VDict [("status", VStr "success")]) eq_refl eq_refl)
      as (H & _). apply H. reflexivity.
  - destruct (authenticate_user_raises (ApiSample.answers no_token) ApiSample.client
                ApiSample.client (VDict [("data", VDict [("auth_data", VStr "a0")])])
                eq_refl eq_refl) as (_ & _ & H & _).
    apply (H (VDict [("auth_data", VStr "a0")])); reflexivity.
Defined.

(** X16. [register_user] sends the credentials to the registration
    endpoint and never touches the token.  It raises exactly when
    [make_request] does; otherwise it adds one record after those of
    [make_request]: the success line for a truthy result, the failure
    line for a falsy one. *)
Theorem register_user_outcomes E st :
  let call := make_request E "POST" "/passport/auth/register" (register_data st) VNone st in
  token (register_user E st).1 = token st /\
  (forall e, call.2 = Raise e -> register_user E st = (st, Raise e)) /\
  (forall result, call.2 = Ok result ->
     register_user E st
     = (State (base_url call.1) (token call.1) (email call.1) (password call.1)
          (logging call.1 ++
             [if truthy result then (INFO, "注册成功") else (ERROR, "注册失败")]),
        Ok tt)).
Proof.
  intros call.
  pose proof (make_request_state E "POST" "/passport/auth/register" (register_data st)
                VNone st) as Hf.
  assert (Hrun : register_user E st
          = match call with
            | (st1, Ok result) =>
                (State (base_url st1) (token st1) (email st1) (password st1)
                   (logging st1 ++
                      [if truthy result then (INFO, "注册成功") else (ERROR, "注册失败")]),
                 Ok tt)
            | (st1, Raise e) => (st1, Raise e)
            end).
  { unfold register_user. run. fold (register_data st). fold call.
    destruct call as [st1 [result|e]]; run; [|reflexivity].
    destruct (truthy result); reflexivity. }
  fold call in Hf. rewrite Hrun. clear Hrun.
  destruct call as [st1 [result|e]] eqn:Hc; cbn [fst snd] in *.
  - split; [|split].
    + destruct Hf as [->|[line ->]]; reflexivity.
    + intros e He. discriminate He.
    + intros r [= <-]. reflexivity.
  - split; [|split].
    + destruct Hf as [->|[line ->]]; reflexivity.
    + intros e0 [= <-].
      pose proof (make_request_raise_inv E "POST" "/passport/auth/register"
                    (register_data st) VNone st e) as Hr.
      fold call in Hr. rewrite Hc in Hr. destruct (Hr eq_refl) as [_ Hst].
      cbn [fst] in Hst. rewrite Hst. reflexivity.
    + intros r Hr. discriminate Hr.
Qed.

Lemma register_user_outcomes_witness :
  register_user (ApiSample.answers ApiSample.refused) ApiSample.client
  = (State (base_url ApiSample.client) VNone (VStr "a@qq.com") (VStr "secret")
       [(ERROR, "HTTP 错误：邮箱或密码错误"); (ERROR, "注册失败")],
     Ok tt).
Proof.
  destruct (register_user_outcomes (ApiSample.answers ApiSample.refused) ApiSample.client)
    as (_ & _ & H).
  rewrite (H VNone); reflexivity.
Defined.

(** *** [get_subscription_link] *)

(** X17. [get_subscription_link] sends one GET request, to
    [/user/getSubscribe] with [?node_id=...] appended only for a truthy
    [node_id], carrying the token as [Authorization] header.  A truthy
    result yields its [data.subscribe_url] (or the lookup error when the
    field is missing); a falsy one yields [None] after an error record.
    The token is never changed. *)
Theorem get_subscription_link_outcomes E node_id st st1 result :
  make_request E "GET" (link_endpoint node_id) VNone (link_headers st) st
  = (st1, Ok result) ->
  get_subscription_link E node_id st
  = (if truthy result then
       (st1, match getitem result "data" with
             | Ok d => getitem d "subscribe_url"
             | Raise e => Raise e
             end)
     else (logged st1 "获取订阅链接失败，请稍后再试。", Ok VNone)) /\
  token (get_subscription_link E node_id st).1 = token st.
Proof.
  intros H.
  assert (Hrun : get_subscription_link E node_id st
          = if truthy result then
              (st1, match getitem result "data" with
                    | Ok d => getitem d "subscribe_url"
                    | Raise e => Raise e
                    end)
            else (logged st1 "获取订阅链接失败，请稍后再试。", Ok VNone)).
  { unfold get_subscription_link. run. fold (link_headers st).
    replace (if truthy node_id
             then "/user/getSubscribe" +:+ "?node_id=" +:+ str node_id
             else "/user/getSubscribe") with (link_endpoint node_id) by reflexivity.
    rewrite H. run. destruct (truthy result); [|reflexivity].
    run. destruct (getitem result "data"); reflexivity. }
  split; [exact Hrun|]. rewrite Hrun.
  assert (Ht : token st1 = token st).
  { destruct (make_request_state E "GET" (link_endpoint node_id) VNone (link_headers st) st)
      as [Hf|[line Hf]]; rewrite H in Hf; cbn [fst] in Hf; rewrite Hf; reflexivity. }
  destruct (truthy result); cbn [fst logged token]; exact Ht.
Qed.

Lemma get_subscription_link_outcomes_witness :
  let answer :=
    Response 200 (Ok (VDict [("data", VDict [("subscribe_url", VStr "https://s/x")])])) in
  let st := with_token ApiSample.client (VStr "a0") in
  link_endpoint (VInt 3) = "/user/getSubscribe?node_id=3" /\
  get_subscription_link (ApiSample.answers answer) (VInt 3) st = (st, Ok (VStr "https://s/x")) /\
  get_subscription_link (ApiSample.fails Sample.timed_out) VNone st
  = (logged (logged st "请求超时，请检查网络连接。") "获取订阅链接失败，请稍后再试。",
     Ok VNone).
Proof.
  intros answer st. split; [reflexivity|]. split.
  - destruct (get_subscription_link_outcomes (ApiSample.answers answer) (VInt 3) st st
                (VDict [("data", VDict [("subscribe_url", VStr "https://s/x")])]) eq_refl)
      as [-> _]. reflexivity.
  - destruct (get_subscription_link_outcomes (ApiSample.fails Sample.timed_out) VNone st
                (logged st "请求超时，请检查网络连接。") VNone eq_refl) as [-> _].
    reflexivity.
Defined.

(** *** The random account *)

Section Random.
Context (draw : nat -> nat).

(** [random.choice] on a non-empty sequence makes one draw and returns
    an element of the sequence. *)
Lemma choice_in {A} (x : A) (l : list A) pos :
  exists y, choice draw (x :: l) pos = (S pos, Ok y) /\ In y (x :: l).
Proof.
  eexists. split; [reflexivity|]. apply nth_In.
  apply Nat.mod_upper_bound. discriminate.
Qed.

(** [n] choices from a non-empty string make [n] draws and give [n]
    characters of that string. *)
Lemma choices_spec (seq : string) n pos :
  seq <> "" ->
  exists s, choices draw seq n pos = (pos + n, Ok s)%nat /\
            String.length s = n /\
            Forall (fun c => In c (chars seq)) (chars s).
Proof.
  intros Hne. revert pos. induction n as [|n IH]; intros pos.
  - exists "". rewrite Nat.add_0_r. repeat split. constructor.
  - destruct seq as [|a seq]; [contradiction|].
    cbn [choices]. unfold mbind, comp_bind.
    destruct (choice_in a (String.list_ascii_of_string seq) pos) as (c & Hc & Hin).
    change (String.list_ascii_of_string (String a seq))
      with (a :: String.list_ascii_of_string seq).
    rewrite Hc. destruct (IH (S pos)) as (s & Hs & Hlen & Hall).
    rewrite Hs. exists (String c s).
    replace (pos + S n)%nat with (S pos + n)%nat by lia.
    split; [reflexivity|]. split; [cbn; congruence|].
    constructor; [exact Hin | exact Hall].
Qed.

(** X18. Whatever the generator draws, [generate_random_password] makes
    twelve draws and returns a password of twelve characters, each of
    them a letter, a digit or one of [!@#$%^&*]. *)
Theorem generate_random_password_spec pos :
  exists pw,
    generate_random_password draw pos = (pos + 12, Ok pw)%nat /\
    String.length pw = 12%nat /\
    Forall (fun c => In c (chars safe_chars)) (chars pw).
Proof. apply choices_spec. discriminate. Qed.

(** X19. Whatever the generator draws, [generate_random_email] makes
    nine draws and returns [user@domain], where [user] is eight
    lowercase letters and [domain] is one of the nine listed domains. *)
Theorem generate_random_email_spec pos :
  exists user domain,
    generate_random_email draw pos = (pos + 9, Ok (user +:+ "@" +:+ domain))%nat /\
    String.length user = 8%nat /\
    Forall (fun c => In c (chars ascii_lowercase)) (chars user) /\
    In domain domains.
Proof.
  destruct (choices_spec ascii_lowercase 8 pos) as (user & Hu & Hlen & Hall);
    [discriminate|].
  unfold generate_random_email, mbind, comp_bind. rewrite Hu.
  destruct (choice_in "gmail.com"
              ["qq.com"; "163.com"; "yahoo.com"; "sina.com"; "126.com"; "outlook.com";
               "yeah.net"; "foxmail.com"] (pos + 8)) as (domain & Hd & Hin).
  change (choice draw domains (pos + 8)%nat = (S (pos + 8), Ok domain)) in Hd.
  rewrite Hd. exists user, domain.
  replace (pos + 9)%nat with (S (pos + 8)) by lia. auto.
Qed.

End Random.

End ApiClientMore.
